(** * ZeroSearch: a shallow embedding of the research pipeline

    The repository holds three copies of one class, [ZeroSearch]: the Brave
    back end (ZeroSearch.py) and two textually identical Serper back ends.
    Each copy has the methods [get_querries], [search], [report] and
    [_get_ai_summary], and keeps its state in three files (querries.json,
    results.json, report.json).

    The embedding follows the Python text method by method.  A Python [str]
    is a list of Unicode code points; the network (language model, search
    provider, page fetcher with its HTML parser) is an environment that
    answers each request as a function of everything that happened before;
    the three files are a record; every externally visible effect is logged
    on a trace. *)

From Stdlib Require Import List NArith Arith Lia Bool.
From Stdlib Require String Ascii.
Import ListNotations.
Import String.StringSyntax.
Delimit Scope string_scope with string.
Bind Scope string_scope with String.string.
Open Scope list_scope.

(* ------------------------------------------------------------------ *)
(** ** Python strings *)

Module Py.

(** A [str] is a sequence of code points. *)
Definition char := N.
Definition str := list char.

(** String literals of the source, written as Rocq strings. *)
Definition lit (s : String.string) : str :=
  map Ascii.N_of_ascii (String.list_ascii_of_string s).

Definition NL : char := 10%N.

(** [str.isspace] on one character: the code points that CPython's
    [_PyUnicode_IsWhitespace] accepts. *)
Definition isspace (c : char) : bool :=
  ((9 <=? c) && (c <=? 13) || (28 <=? c) && (c <=? 32)
   || (c =? 133) || (c =? 160) || (c =? 5760)
   || (8192 <=? c) && (c <=? 8202)
   || (c =? 8232) || (c =? 8233) || (c =? 8239) || (c =? 8287)
   || (c =? 12288))%N.

(** [s.lstrip()], [s.rstrip()], [s.strip()]. *)
Fixpoint lstrip (s : str) : str :=
  match s with
  | [] => []
  | c :: s' => if isspace c then lstrip s' else s
  end.

Definition rstrip (s : str) : str := rev (lstrip (rev s)).

Definition strip (s : str) : str := rstrip (lstrip s).

(** Truth value of a string: [if s] holds for the non-empty ones. *)
Definition truthy (s : str) : bool :=
  match s with [] => false | _ :: _ => true end.

(** [s.split(sep)] for a one-character separator: never an empty list,
    an empty piece between two adjacent separators. *)
Fixpoint split_on (sep : char) (s : str) : list str :=
  match s with
  | [] => [[]]
  | c :: s' =>
      if (c =? sep)%N then [] :: split_on sep s'
      else match split_on sep s' with
           | [] => [[c]]
           | piece :: rest => (c :: piece) :: rest
           end
  end.

(** [s.split()] without argument: the maximal runs of non-whitespace
    characters.  [cur] is the run being read, most recent character first. *)
Fixpoint split_ws_from (cur : str) (s : str) : list str :=
  match s with
  | [] => match cur with [] => [] | _ => [rev cur] end
  | c :: s' =>
      if isspace c
      then match cur with
           | [] => split_ws_from [] s'
           | _ => rev cur :: split_ws_from [] s'
           end
      else split_ws_from (c :: cur) s'
  end.

Definition split_ws (s : str) : list str := split_ws_from [] s.

(** [sep.join(parts)]. *)
Fixpoint join (sep : str) (parts : list str) : str :=
  match parts with
  | [] => []
  | [p] => p
  | p :: rest => p ++ sep ++ join sep rest
  end.

(** [s[i:j]] for [0 <= i <= j]; a slice running past the end is cut. *)
Definition slice (s : str) (i j : nat) : str := firstn (j - i) (skipn i s).

(** [s[:n]]. *)
Definition prefix (s : str) (n : nat) : str := firstn n s.

(** Number of elements of [range(start, stop, step)], [step > 0]. *)
Definition range_len (start stop step : nat) : nat :=
  (stop - start + (step - 1)) / step.

(** [range(start, stop, step)] for a positive step: position [k] holds
    [start + k * step], for as long as that is below [stop]. *)
Definition range (start stop step : nat) : list nat :=
  map (fun k => start + k * step) (seq 0 (range_len start stop step)).

End Py.

(* ------------------------------------------------------------------ *)
(** ** Data model *)

(** The back end a copy of the class talks to.  The two Serper copies of
    the class have the same text in every method modelled here. *)
Inductive provider := Brave | Serper.

(** One element of the list kept in results.json: the dictionary built at
    the end of the [try] block of [search].  [title] is [None] when
    [soup.title.string] is (json writes it as null). *)
Record ExtractionRecord := {
  url : Py.str;
  title : option Py.str;
  text : Py.str
}.

(** One entry of the provider's result list, a dictionary.  [hit_url] is
    the value under the key the copy reads (url for Brave, link for
    Serper), [None] when the key is missing.  [hit_title] is the value
    under the key title: [None] when the key is missing, [Some None] when
    the value is null, [Some (Some s)] when it is the string [s]. *)
Record SearchHit := {
  hit_url : option Py.str;
  hit_title : option (option Py.str)
}.

(** What the page fetch and [BeautifulSoup(page.content, 'html.parser')]
    hand to the code: [soup.title] (absent, or present with its [.string],
    itself possibly [None]) and [soup.body] (absent, or present with the
    result of [get_text()] once script, style, noscript, footer and nav
    have been removed). *)
Record Soup := {
  soup_title : option (option Py.str);
  soup_body : option Py.str
}.

(** Contents of querries.json and results.json: written blank by
    [__init__] (querries.json) or holding a JSON list. *)
Inductive queries_content :=
| QueriesBlank
| QueriesJson (qs : list Py.str).

Inductive results_content :=
| ResultsBlank
| ResultsJson (rs : list ExtractionRecord).

(** The three storage files; [None] is a file that does not exist. *)
Record Files := {
  queries_file : option queries_content;
  results_file : option results_content;
  report_file : option Py.str
}.

(** Effects of a call, in the order they happen.  Temperatures are in
    tenths (0.7 is 7, 0.3 is 3). *)
Inductive event :=
| Completion (prompt : Py.str) (temperature : N)
| ProviderSearch (p : provider) (query : Py.str)
| PageFetch (target : Py.str)
| Sleep (seconds : nat)
| Print (line : Py.str).

(** The outside world.  Each answer may depend on the whole history.
    - [llm]: the message content of the completion, [None] when the request
      or the decoding of its answer raises;
    - [find]: the result list of the provider's answer ([Some None] when the
      answer has no such list), [None] when the request raises;
    - [fetch]: the parsed page, or the text of the exception raised while
      fetching or parsing. *)
Record Env := {
  llm : list event -> Py.str -> N -> option Py.str;
  find : list event -> provider -> Py.str -> option (option (list SearchHit));
  fetch : list event -> Py.str -> Soup + Py.str
}.

Record World := {
  files : Files;
  trace : list event
}.

Inductive exn :=
| KeyError (key : Py.str)
| AttributeError (name : Py.str)
| RequestError.

Inductive outcome (A : Type) :=
| Ok (a : A)
| Raise (e : exn).
Arguments Ok {A} a.
Arguments Raise {A} e.

(** A method body: reads and updates the world, returns or raises. *)
Definition M (A : Type) : Type := World -> outcome A * World.

Definition ret {A} (a : A) : M A := fun w => (Ok a, w).

Definition raise {A} (e : exn) : M A := fun w => (Raise e, w).

Definition bind {A B} (m : M A) (k : A -> M B) : M B :=
  fun w =>
    match m w with
    | (Ok a, w') => k a w'
    | (Raise e, w') => (Raise e, w')
    end.

Notation "x <- m ;; k" := (bind m (fun x => k))
  (at level 61, m at next level, right associativity).
Notation "m ;;; k" := (bind m (fun _ => k))
  (at level 61, right associativity).

Definition log (e : event) : M unit :=
  fun w => (Ok tt, {| files := files w; trace := trace w ++ [e] |}).

Definition read_files : M Files := fun w => (Ok (files w), w).

Definition write_files (fs : Files) : M unit :=
  fun w => (Ok tt, {| files := fs; trace := trace w |}).

Definition set_queries (fs : Files) (c : queries_content) : Files :=
  {| queries_file := Some c;
     results_file := results_file fs;
     report_file := report_file fs |}.

Definition set_results (fs : Files) (c : results_content) : Files :=
  {| queries_file := queries_file fs;
     results_file := Some c;
     report_file := report_file fs |}.

Definition set_report (fs : Files) (s : Py.str) : Files :=
  {| queries_file := queries_file fs;
     results_file := results_file fs;
     report_file := Some s |}.

(* ------------------------------------------------------------------ *)
(** ** The class *)

(** [__init__]: each storage file that does not exist is created,
    results.json holding the empty list and the two others blank. *)
Definition init (fs : Files) : Files :=
  {| queries_file :=
       match queries_file fs with None => Some QueriesBlank | c => c end;
     results_file :=
       match results_file fs with None => Some (ResultsJson []) | c => c end;
     report_file :=
       match report_file fs with None => Some [] | c => c end |}.

(** [requests.post] to the completion endpoint followed by
    [response.json()['choices'][0]['message']['content']]. *)
Definition completion (env : Env) (prompt : Py.str) (temperature : N)
  : M Py.str :=
  fun w =>
    let w' := {| files := files w;
                 trace := trace w ++ [Completion prompt temperature] |} in
    match llm env (trace w) prompt temperature with
    | Some content => (Ok content, w')
    | None => (Raise RequestError, w')
    end.

Definition queries_prompt (theme : Py.str) : Py.str :=
  Py.lit "Compile 10 prompts for comprehensive web research of this theme: "
  ++ theme ++ Py.lit ". Answer ONLY with the queries.".

(** The comprehension [[q.strip() for q in raw_queries.split('\n')
    if q.strip()]]. *)
Definition clean_queries (raw_queries : Py.str) : list Py.str :=
  map Py.strip
      (filter (fun q => Py.truthy (Py.strip q))
              (Py.split_on Py.NL raw_queries)).

(** [get_querries], the same text in the three copies. *)
Definition get_querries (env : Env) (theme : Py.str) : M (list Py.str) :=
  content <- completion env (queries_prompt theme) 7 ;;
  let raw_queries := Py.strip content in
  let queries := clean_queries raw_queries in
  fs <- read_files ;;
  write_files (set_queries fs (QueriesJson queries)) ;;;
  ret queries.

(** Truth value of something that is [None] or a string. *)
Definition value_truthy (v : option Py.str) : bool :=
  match v with Some s => Py.truthy s | None => false end.

(** [res.get('title', '')]: the value under the key, the empty string when
    the key is missing. *)
Definition title_hint (res : SearchHit) : option Py.str :=
  match hit_title res with Some v => v | None => Some [] end.

(** Title of the record: the two lines after the comment "Extract title".
    [if not title and soup.title: title = soup.title.string]. *)
Definition extract_title (res : SearchHit) (soup : Soup) : option Py.str :=
  let title := title_hint res in
  if negb (value_truthy title)
  then match soup_title soup with
       | Some title_string => title_string
       | None => title
       end
  else title.

(** Text of the page: the [if soup.body] statement. *)
Definition extract_text (soup : Soup) : Py.str :=
  match soup_body soup with
  | Some body_text => Py.join (Py.lit " ") (Py.split_ws body_text)
  | None => []
  end.

Definition TEXT_LIMIT : nat := N.to_nat 100000.

(** The dictionary appended to [results]. *)
Definition build_record (target : Py.str) (res : SearchHit) (soup : Soup)
  : ExtractionRecord :=
  {| url := target;
     title := extract_title res soup;
     text := Py.prefix (extract_text soup) TEXT_LIMIT |}.

Definition error_line (target msg : Py.str) : Py.str :=
  Py.lit "Error processing " ++ target ++ Py.lit ": " ++ msg.

(** The [try] statement of the loop body.  An exception leaves [results]
    as it was and prints; otherwise the record is appended and the call
    sleeps one second. *)
Definition try_fetch (env : Env) (target : Py.str) (res : SearchHit)
    (results : list ExtractionRecord) : M (list ExtractionRecord) :=
  fun w =>
    let w1 := {| files := files w; trace := trace w ++ [PageFetch target] |} in
    match fetch env (trace w) target with
    | inl soup =>
        (Ok (results ++ [build_record target res soup]),
         {| files := files w1; trace := trace w1 ++ [Sleep 1] |})
    | inr msg =>
        (Ok results,
         {| files := files w1;
            trace := trace w1 ++ [Print (error_line target msg)] |})
    end.

(** One turn of [for res in ...].  Brave reads [res['url']] before the
    [try]; Serper reads [res.get('link', '')] and moves on to the next
    entry when that is empty. *)
Definition loop_body (p : provider) (env : Env) (res : SearchHit)
    (results : list ExtractionRecord) : M (list ExtractionRecord) :=
  match p with
  | Brave =>
      match hit_url res with
      | None => raise (KeyError (Py.lit "url"))
      | Some target => try_fetch env target res results
      end
  | Serper =>
      let target := match hit_url res with Some u => u | None => [] end in
      if negb (Py.truthy target) then ret results
      else try_fetch env target res results
  end.

Fixpoint search_loop (p : provider) (env : Env) (hits : list SearchHit)
    (results : list ExtractionRecord) : M (list ExtractionRecord) :=
  match hits with
  | [] => ret results
  | res :: rest =>
      results' <- loop_body p env res results ;;
      search_loop p env rest results'
  end.

(** The provider request and the two [.get] with their defaults. *)
Definition provider_results (p : provider) (env : Env) (query : Py.str)
  : M (list SearchHit) :=
  fun w =>
    let w' := {| files := files w;
                 trace := trace w ++ [ProviderSearch p query] |} in
    match find env (trace w) p query with
    | Some (Some hits) => (Ok hits, w')
    | Some None => (Ok [], w')
    | None => (Raise RequestError, w')
    end.

(** First half of [search]: the value of [results] when the loop ends. *)
Definition gather (p : provider) (env : Env) (query : Py.str)
  : M (list ExtractionRecord) :=
  hits <- provider_results p env query ;;
  search_loop p env hits [].

(** [existing_results] as [search] reads it: the list in results.json when
    the file exists and is not blank, the empty list otherwise. *)
Definition load_corpus (fs : Files) : list ExtractionRecord :=
  match results_file fs with
  | Some (ResultsJson rs) => rs
  | _ => []
  end.

(** Second half of [search]: load, extend, write back. *)
Definition persist (results : list ExtractionRecord) : M unit :=
  fs <- read_files ;;
  let existing_results := load_corpus fs in
  write_files (set_results fs (ResultsJson (existing_results ++ results))).

Definition search (p : provider) (env : Env) (query : Py.str) : M unit :=
  results <- gather p env query ;;
  persist results.

Definition summary_prompt (text : Py.str) : Py.str :=
  Py.lit "You are a web researcher AI. Analyze the following text and create a detailed report "
  ++ Py.lit "capturing all important themes, patterns, and data points. Include specific facts, "
  ++ (Py.lit "statistics, and insights. Organize findings logically:" ++ [Py.NL; Py.NL])
  ++ text.

(** [_get_ai_summary].  The Serper copies read [self.openrouter_api_key]
    while their [__init__] sets [self.openrouter_key]: building the headers
    raises before any request is made. *)
Definition _get_ai_summary (p : provider) (env : Env) (text : Py.str)
  : M Py.str :=
  let prompt := summary_prompt text in
  match p with
  | Brave =>
      content <- completion env prompt 3 ;;
      ret (Py.strip content)
  | Serper => raise (AttributeError (Py.lit "openrouter_api_key"))
  end.

(** [MAX_TOKENS = 100000] and [CHUNK_SIZE = int(MAX_TOKENS * 2.5)]; the
    product is the float 250000.0 exactly. *)
Definition MAX_TOKENS : N := 100000.
Definition CHUNK_SIZE : nat := N.to_nat (MAX_TOKENS * 5 / 2).

Definition BLANK_LINE : Py.str := [Py.NL; Py.NL].

(** [f"Source: {res['url']}\n{res['text']}"]. *)
Definition source_block (res : ExtractionRecord) : Py.str :=
  Py.lit "Source: " ++ url res ++ [Py.NL] ++ text res.

Definition full_text (results : list ExtractionRecord) : Py.str :=
  Py.join BLANK_LINE (map source_block results).

(** [[full_text[i:i+size] for i in range(0, len(full_text), size)]]. *)
Definition chunks_of (size : nat) (s : Py.str) : list Py.str :=
  map (fun i => Py.slice s i (i + size)) (Py.range 0 (length s) size).

(** The [for chunk in chunks] loop: [summaries] after the last turn. *)
Fixpoint summarize_all (p : provider) (env : Env) (chunks : list Py.str)
    (summaries : list Py.str) : M (list Py.str) :=
  match chunks with
  | [] => ret summaries
  | chunk :: rest =>
      response <- _get_ai_summary p env chunk ;;
      summarize_all p env rest (summaries ++ [response])
  end.

Definition NO_RESULTS : Py.str := Py.lit "No results available for reporting".

(** [report] with the chunk size as a parameter. *)
Definition report_with (size : nat) (p : provider) (env : Env) : M Py.str :=
  fs <- read_files ;;
  match results_file fs with
  | None | Some ResultsBlank => ret NO_RESULTS
  | Some (ResultsJson results) =>
      let full := full_text results in
      final_report <-
        (if size <? length full then
           summaries <- summarize_all p env (chunks_of size full) [] ;;
           let combined_summary := Py.join BLANK_LINE summaries in
           _get_ai_summary p env combined_summary
         else _get_ai_summary p env full) ;;
      fs' <- read_files ;;
      write_files (set_report fs' final_report) ;;;
      ret final_report
  end.

Definition report (p : provider) (env : Env) : M Py.str :=
  report_with CHUNK_SIZE p env.

(* ------------------------------------------------------------------ *)
(** ** Observing a call *)

(** The call returned (did not raise). *)
Definition returned {A} (r : outcome A * World) : bool :=
  match fst r with Ok _ => true | Raise _ => false end.

(** The value returned, when there is one. *)
Definition value {A} (r : outcome A * World) : option A :=
  match fst r with Ok a => Some a | Raise _ => None end.

(** The events a call added to the trace. *)
Definition emitted {A} (m : M A) (w : World) : list event :=
  skipn (length (trace w)) (trace (snd (m w))).

(** Prompts of the completion requests on a trace, in order. *)
Fixpoint prompts_of (t : list event) : list Py.str :=
  match t with
  | [] => []
  | Completion prompt _ :: t' => prompt :: prompts_of t'
  | _ :: t' => prompts_of t'
  end.

(** Targets of the page fetches on a trace, in order. *)
Fixpoint fetches_of (t : list event) : list Py.str :=
  match t with
  | [] => []
  | PageFetch target :: t' => target :: fetches_of t'
  | _ :: t' => fetches_of t'
  end.

Definition ceil_div (a b : nat) : nat := (a + (b - 1)) / b.

(** [pending] says that a page was fetched and no sleep of at least one
    second has followed it yet.  The trace is polite when no fetch happens
    while another one is pending. *)
Fixpoint polite_from (pending : bool) (t : list event) : bool :=
  match t with
  | [] => true
  | PageFetch _ :: t' => negb pending && polite_from true t'
  | Sleep seconds :: t' =>
      polite_from (if 1 <=? seconds then false else pending) t'
  | _ :: t' => polite_from pending t'
  end.

Definition polite (t : list event) : bool := polite_from false t.

(** The record invariant of the data model. *)
Definition url_nonempty (r : ExtractionRecord) : bool := Py.truthy (url r).

Definition text_bounded (r : ExtractionRecord) : bool :=
  length (text r) <=? TEXT_LIMIT.

(** A string made of whitespace only (the empty one included). *)
Definition blank (s : Py.str) : bool := forallb Py.isspace s.

(** [r] is the record the loop builds from some entry of [hits] whose page
    the network delivered. *)
Definition built_from (env : Env) (hits : list SearchHit)
    (r : ExtractionRecord) : Prop :=
  exists res soup t,
    In res hits /\ hit_url res = Some (url r) /\
    fetch env t (url r) = inl soup /\
    r = build_record (url r) res soup.

(* ------------------------------------------------------------------ *)
(** ** The specification's wording, for comparison *)

(** Query list: the response split on line boundaries, each line trimmed,
    blank lines discarded. *)
Definition lines_trimmed_nonblank (response : Py.str) : list Py.str :=
  filter (fun line => negb (blank line))
         (map Py.strip (Py.split_on Py.NL response)).

(** Title resolution order, as the specification words it: the
    provider's hint if non-empty, else the document's own title, else the
    empty string.  Both inputs are strings when they are there at all, and
    so is the outcome. *)
Definition resolve_title (hint : option Py.str)
    (document_title : option Py.str) : Py.str :=
  match hint with
  | Some (c :: h) => c :: h
  | _ => match document_title with
         | Some t => t
         | None => []
         end
  end.


(** Title resolution as the loop computes it.  [hint] is the entry's value
    under title, [element] the page's title element with its [.string].
    A non-empty hint is kept.  Otherwise a title element decides, and its
    string may be null.  Without a title element the hint stays as the
    entry gave it: the empty string when the key is missing or empty, null
    when the entry holds null. *)
Definition title_as_built (hint element : option (option Py.str))
  : option Py.str :=
  match hint with
  | Some (Some (c :: h)) => Some (c :: h)
  | _ => match element with
         | Some element_string => element_string
         | None => match hint with
                   | Some None => None
                   | _ => Some []
                   end
         end
  end.

(** Blob: one block per record, in corpus order, a blank line between two
    blocks. *)
Fixpoint blocks_with_blank_lines (rs : list ExtractionRecord) : Py.str :=
  match rs with
  | [] => []
  | r :: rest =>
      let block := Py.lit "Source: " ++ url r ++ [Py.NL] ++ text r in
      match rest with
      | [] => block
      | _ :: _ => block ++ [Py.NL] ++ [Py.NL] ++ blocks_with_blank_lines rest
      end
  end.

(** Consecutive slices of [s]: piece [k] is the characters from position
    [k * size] up to, not including, position [(k + 1) * size]. *)
Definition consecutive_slices (size : nat) (s : Py.str) (pieces : list Py.str)
  : Prop :=
  forall k, k < length pieces ->
    nth k pieces [] = firstn size (skipn (k * size) s).

(** Every piece but the last has exactly [size] characters; the last has
    between one and [size]. *)
Definition fixed_size_but_last (size : nat) (pieces : list Py.str) : Prop :=
  forall k, k < length pieces ->
    (S k < length pieces -> length (nth k pieces []) = size) /\
    (S k = length pieces -> 1 <= length (nth k pieces []) <= size).

(* ------------------------------------------------------------------ *)
(** ** Sample worlds *)

Definition no_files : Files :=
  {| queries_file := None; results_file := None; report_file := None |}.

Definition fresh : World := {| files := init no_files; trace := [] |}.

Definition page (t : option (option Py.str)) (b : option Py.str) : Soup :=
  {| soup_title := t; soup_body := b |}.

(** An entry whose title, when it has one, is a string. *)
Definition hit (u t : option Py.str) : SearchHit :=
  {| hit_url := u; hit_title := option_map Some t |}.

(** An entry whose title is null. *)
Definition untitled_hit (u : Py.str) : SearchHit :=
  {| hit_url := Some u; hit_title := Some None |}.

(** A network where the model answers every prompt with two short lines
    wrapped in blanks, the provider returns [hits], the page at http://a
    times out, the page at http://b has a title and a body, any other
    eight-character address gives a page with neither, and an address of
    any other length is refused. *)
Definition sample_response : Py.str :=
  ([32; 10] ++ Py.lit "alpha" ++ [10; 32; 10] ++ Py.lit " beta " ++ [10])%N.

Definition network (hits : list SearchHit) : Env :=
  {| llm := fun _ _ _ => Some sample_response;
     find := fun _ _ _ => Some (Some hits);
     fetch := fun _ target =>
       if length target =? 8 then
         match nth 7 target 0%N with
         | 97%N => inr (Py.lit "timed out")
         | 98%N => inl (page (Some (Some (Py.lit "Doc B")))
                             (Some (Py.lit "  hello   world ")))
         | _ => inl (page None None)
         end
       else inr (Py.lit "No scheme supplied") |}.

Definition sample_hits : list SearchHit :=
  [ hit (Some (Py.lit "http://a")) (Some (Py.lit "A"));
    hit (Some (Py.lit "http://b")) None;
    hit (Some (Py.lit "http://c")) (Some []) ].

Definition sample_env : Env := network sample_hits.

(** A result list whose first entry has no address. *)
Definition gappy_hits : list SearchHit :=
  [ hit None (Some (Py.lit "no address"));
    hit (Some (Py.lit "http://b")) (Some (Py.lit "B")) ].

(** A result list whose first entry has an empty address. *)
Definition hollow_hits : list SearchHit :=
  [ hit (Some []) (Some (Py.lit "empty address"));
    hit (Some (Py.lit "http://b")) (Some (Py.lit "B")) ].

(** A session already under way: a stored query list, two records in the
    corpus, an earlier report. *)
Definition old_records : list ExtractionRecord :=
  [ {| url := Py.lit "http://x"; title := Some (Py.lit "X");
       text := Py.lit "first page" |};
    {| url := Py.lit "http://y"; title := None; text := [] |} ].

Definition used : World :=
  {| files := {| queries_file := Some (QueriesJson [Py.lit "old query"]);
                 results_file := Some (ResultsJson old_records);
                 report_file := Some (Py.lit "old report") |};
     trace := [Print (Py.lit "earlier")] |}.

(* ------------------------------------------------------------------ *)
(** ** The loop of the interface *)

(** The worker of [ZeroSearchGUI.run_searches] calls [self.zs.search] on
    each stored query, in order; an exception ends the loop.  Only the
    calls are kept here: the widget updates between them touch neither the
    files nor the network. *)
Fixpoint search_each (p : provider) (env : Env) (queries : list Py.str)
  : M unit :=
  match queries with
  | [] => ret tt
  | query :: rest => search p env query ;;; search_each p env rest
  end.

(** The whole worker: [json.load] of querries.json, then the loop, inside
    one [try] whose handler shows the error.  The interface is built on
    [ZeroSearch()], the Serper copy.  The boolean is [true] when the worker
    reaches its last line, "All searches completed"; a missing or blank
    querries.json makes the read raise. *)
Definition run_searches (env : Env) (w : World) : bool * World :=
  match queries_file (files w) with
  | Some (QueriesJson queries) =>
      (returned (search_each Serper env queries w),
       snd (search_each Serper env queries w))
  | _ => (false, w)
  end.

(* ------------------------------------------------------------------ *)
(** ** More ways to read a trace or a text *)

(** Lines printed on a trace, in order. *)
Fixpoint printed (t : list event) : list Py.str :=
  match t with
  | [] => []
  | Print line :: t' => line :: printed t'
  | _ :: t' => printed t'
  end.

(** Total time slept on a trace, in seconds. *)
Fixpoint seconds_slept (t : list event) : nat :=
  match t with
  | [] => 0
  | Sleep seconds :: t' => seconds + seconds_slept t'
  | _ :: t' => seconds_slept t'
  end.

(** Queries sent to the search provider on a trace, in order. *)
Fixpoint searched_of (t : list event) : list Py.str :=
  match t with
  | [] => []
  | ProviderSearch _ query :: t' => query :: searched_of t'
  | _ :: t' => searched_of t'
  end.

(** A text whose only whitespace is the plain space, never at the start
    and never twice in a row.  [after_space] says that the character before
    was a space (or that the text starts here). *)
Fixpoint single_spaced (after_space : bool) (s : Py.str) : bool :=
  match s with
  | [] => true
  | c :: s' =>
      if (c =? 32)%N then negb after_space && single_spaced true s'
      else negb (Py.isspace c) && single_spaced false s'
  end.

Definition normalized (s : Py.str) : bool := single_spaced true s.

(** The addresses a call of [search] tries to fetch, read off the
    provider's list: with Brave, the url of every entry up to the first
    entry that has none; with Serper, every non-empty link. *)
Fixpoint Brave_targets (hits : list SearchHit) : list Py.str :=
  match hits with
  | [] => []
  | res :: rest =>
      match hit_url res with
      | Some target => target :: Brave_targets rest
      | None => []
      end
  end.

Definition Serper_targets (hits : list SearchHit) : list Py.str :=
  filter Py.truthy
    (map (fun res => match hit_url res with Some u => u | None => [] end) hits).

Definition fetch_targets (p : provider) (hits : list SearchHit)
  : list Py.str :=
  match p with
  | Brave => Brave_targets hits
  | Serper => Serper_targets hits
  end.

(** A network on which every page loads and the model never answers. *)
Definition open_network (hits : list SearchHit) : Env :=
  {| llm := fun _ _ _ => None;
     find := fun _ _ _ => Some (Some hits);
     fetch := fun _ target =>
       inl (page (Some None) (Some ([9; 32] ++ target ++ [10; 10; 120])%N)) |}.

(** A network whose provider is down. *)
Definition dead_network : Env :=
  {| llm := fun _ _ _ => None;
     find := fun _ _ _ => None;
     fetch := fun _ _ => inr (Py.lit "unreachable") |}.

(** A corpus too long for one request: three pages whose texts fill the
    limit. *)
Definition long_page (c : N) : ExtractionRecord :=
  {| url := Py.lit "http://long/" ++ [c]; title := Some [];
     text := repeat c TEXT_LIMIT |}.

Definition long_corpus : list ExtractionRecord :=
  [long_page 97%N; long_page 98%N; long_page 99%N].

Definition long_world : World :=
  {| files := {| queries_file := Some QueriesBlank;
                 results_file := Some (ResultsJson long_corpus);
                 report_file := Some [] |};
     trace := [] |}.

(** A model that answers its first request of a session and no other. *)
Definition one_answer_network : Env :=
  {| llm := fun t _ _ =>
       match prompts_of t with [] => Some sample_response | _ => None end;
     find := fun _ _ _ => None;
     fetch := fun _ _ => inr (Py.lit "unreachable") |}.

(* ------------------------------------------------------------------ *)
(** ** The model's answers during a report *)

(** The trace once summaries of the texts [done] have been requested, in
    order, on a trace that was [t]. *)
Definition asked_after (t : list event) (done : list Py.str) : list event :=
  t ++ map (fun c => Completion (summary_prompt c) 3) done.

(** What the model answers to the request for a summary of the [i]-th of
    [chunks], made once the chunks before it have been asked for in order
    on a trace that was [t]; [None] when that request fails. *)
Definition answer_at (env : Env) (t : list event) (chunks : list Py.str)
    (i : nat) : option Py.str :=
  llm env (asked_after t (firstn i chunks)) (summary_prompt (nth i chunks [])) 3.

(** [summaries] holds, in order, the model's answer to each request for a
    chunk, trimmed. *)
Definition summaries_of (env : Env) (t : list event) (chunks : list Py.str)
    (summaries : list Py.str) : Prop :=
  length summaries = length chunks /\
  forall i, i < length chunks ->
    exists content,
      answer_at env t chunks i = Some content /\
      nth i summaries [] = Py.strip content.

(** The request for chunk [k] is the first one that fails. *)
Definition first_failure (env : Env) (t : list event) (chunks : list Py.str)
    (k : nat) : Prop :=
  k < length chunks /\
  (forall i, i < k -> answer_at env t chunks i <> None) /\
  answer_at env t chunks k = None.

(* ------------------------------------------------------------------ *)
(** ** Sequences of calls *)

(** The calls a client makes on the files of one session: building an
    instance, and the three public methods. *)
Inductive operation :=
| Construct
| CallGetQuerries (theme : Py.str)
| CallSearch (query : Py.str)
| CallReport.

(** One call.  The world it leaves is kept whether the call returned or
    raised: the caller may catch the exception and go on. *)
Definition perform (p : provider) (env : Env) (o : operation) (w : World)
  : World :=
  match o with
  | Construct => {| files := init (files w); trace := trace w |}
  | CallGetQuerries theme => snd (get_querries env theme w)
  | CallSearch query => snd (search p env query w)
  | CallReport => snd (report p env w)
  end.

Definition perform_all (p : provider) (env : Env) (ops : list operation)
    (w : World) : World :=
  fold_left (fun w' o => perform p env o w') ops w.

(** The record invariant of the data model: a non-empty address, a text of
    at most 100000 characters. *)
Definition record_invariant (r : ExtractionRecord) : Prop :=
  url r <> [] /\ length (text r) <= TEXT_LIMIT.

(** [requests.get] refuses the empty address: it raises MissingSchema
    before anything is sent, inside the [try] of the loop. *)
Definition refuses_empty_address (env : Env) : Prop :=
  forall t, exists msg, fetch env t [] = inr msg.

(* ------------------------------------------------------------------ *)
(** ** Python strings: facts *)

Section StringFacts.

Import Py.

Lemma lstrip_head (s : str) :
  lstrip s = [] \/ exists c r, lstrip s = c :: r /\ isspace c = false.
Proof.
  induction s as [|c s IH]; simpl; [now left|].
  destruct (isspace c) eqn:E; [exact IH|].
  right. now exists c, s.
Qed.

Lemma rstrip_last (s : str) :
  rstrip s = [] \/ exists r c, rstrip s = r ++ [c] /\ isspace c = false.
Proof.
  unfold rstrip. destruct (lstrip_head (rev s)) as [E|(c & r & E & Hc)];
    rewrite E; simpl; [now left|].
  right. now exists (rev r), c.
Qed.

Lemma blank_app (s t : str) : blank (s ++ t) = blank s && blank t.
Proof. apply forallb_app. Qed.

(** A trimmed string is blank only when it is empty. *)
Lemma blank_strip (s : str) : blank (strip s) = negb (truthy (strip s)).
Proof.
  unfold strip. destruct (rstrip_last (lstrip s)) as [E|(r & c & E & Hc)];
    rewrite E; [reflexivity|].
  rewrite blank_app. simpl. rewrite Hc, andb_false_r.
  now destruct r.
Qed.

Lemma strip_cons_space (c : char) (s : str) :
  isspace c = true -> strip (c :: s) = strip s.
Proof. intros H. unfold strip. simpl. now rewrite H. Qed.

Lemma lstrip_snoc_space (c : char) (s : str) :
  isspace c = true ->
  lstrip (s ++ [c]) = match lstrip s with [] => [] | _ => lstrip s ++ [c] end.
Proof.
  intros H. induction s as [|a s IH]; simpl.
  - now rewrite H.
  - destruct (isspace a); [exact IH|reflexivity].
Qed.

Lemma rstrip_snoc_space (c : char) (s : str) :
  isspace c = true -> rstrip (s ++ [c]) = rstrip s.
Proof.
  intros H. unfold rstrip. rewrite rev_app_distr. simpl. now rewrite H.
Qed.

Lemma strip_snoc_space (c : char) (s : str) :
  isspace c = true -> strip (s ++ [c]) = strip s.
Proof.
  intros H. unfold strip. rewrite (lstrip_snoc_space c s H).
  destruct (lstrip s) as [|a r] eqn:E; [reflexivity|].
  now apply rstrip_snoc_space.
Qed.

Lemma split_on_nonempty (sep : char) (s : str) : split_on sep s <> [].
Proof.
  destruct s as [|c s]; simpl; [discriminate|].
  destruct (c =? sep)%N; [discriminate|].
  destruct (split_on sep s); discriminate.
Qed.

(** Splitting after one more character: a separator opens a new, empty
    piece; any other character joins the last piece. *)
Lemma split_on_snoc (sep c : char) (s : str) :
  split_on sep (s ++ [c]) =
  if (c =? sep)%N then split_on sep s ++ [[]]
  else removelast (split_on sep s) ++ [last (split_on sep s) [] ++ [c]].
Proof.
  induction s as [|a s IH]; simpl.
  - destruct (c =? sep)%N; reflexivity.
  - pose proof (split_on_nonempty sep s) as Hne.
    destruct (a =? sep)%N.
    + rewrite IH. destruct (c =? sep)%N; [reflexivity|].
      destruct (split_on sep s) as [|p r]; [contradiction|reflexivity].
    + rewrite IH. destruct (split_on sep s) as [|p r]; [contradiction|].
      destruct (c =? sep)%N; [reflexivity|].
      destruct r; reflexivity.
Qed.

End StringFacts.

(* ------------------------------------------------------------------ *)
(** ** Query generation *)

Section Queries.

Import Py.

Lemma lines_cons_space (c : char) (s : str) :
  isspace c = true ->
  lines_trimmed_nonblank (c :: s) = lines_trimmed_nonblank s.
Proof.
  intros H. unfold lines_trimmed_nonblank. simpl.
  destruct (c =? NL)%N; [reflexivity|].
  pose proof (split_on_nonempty NL s) as Hne.
  destruct (split_on NL s) as [|p r]; [contradiction|].
  simpl. now rewrite (strip_cons_space c p H).
Qed.

Lemma lines_snoc_space (c : char) (s : str) :
  isspace c = true ->
  lines_trimmed_nonblank (s ++ [c]) = lines_trimmed_nonblank s.
Proof.
  intros H. unfold lines_trimmed_nonblank. rewrite split_on_snoc.
  destruct (c =? NL)%N.
  - rewrite map_app, filter_app. simpl. apply app_nil_r.
  - pose proof (app_removelast_last [] (split_on_nonempty NL s)) as E.
    set (l := split_on NL s) in *.
    rewrite E at 3. rewrite !map_app. simpl.
    now rewrite (strip_snoc_space c _ H).
Qed.

Lemma lines_lstrip (s : str) :
  lines_trimmed_nonblank (lstrip s) = lines_trimmed_nonblank s.
Proof.
  induction s as [|c s IH]; simpl; [reflexivity|].
  destruct (isspace c) eqn:E; [|reflexivity].
  now rewrite IH, (lines_cons_space c s E).
Qed.

Lemma lines_rstrip (s : str) :
  lines_trimmed_nonblank (rstrip s) = lines_trimmed_nonblank s.
Proof.
  unfold rstrip. rewrite <- (rev_involutive s) at 2.
  induction (rev s) as [|c u IH]; simpl; [reflexivity|].
  destruct (isspace c) eqn:E; [|reflexivity].
  now rewrite IH, (lines_snoc_space c (rev u) E).
Qed.

(** Trimming the whole response first does not change the lines kept. *)
Lemma lines_strip (s : str) :
  lines_trimmed_nonblank (strip s) = lines_trimmed_nonblank s.
Proof. unfold strip. now rewrite lines_rstrip, lines_lstrip. Qed.

(** The comprehension filters before it trims; the wording trims before
    it filters. *)
Lemma clean_queries_lines (raw : str) :
  clean_queries raw = lines_trimmed_nonblank raw.
Proof.
  unfold clean_queries, lines_trimmed_nonblank.
  induction (split_on NL raw) as [|q l IH]; simpl; [reflexivity|].
  rewrite blank_strip, negb_involutive.
  destruct (truthy (strip q)); simpl; now rewrite IH.
Qed.


End Queries.



Example get_querries_sample :
  value (get_querries sample_env (Py.lit "solar") used)
    = Some [Py.lit "alpha"; Py.lit "beta"] /\
  queries_file (files (snd (get_querries sample_env (Py.lit "solar") used)))
    = Some (QueriesJson [Py.lit "alpha"; Py.lit "beta"]).
Proof. split; reflexivity. Qed.

(* ------------------------------------------------------------------ *)
(** ** Traces *)

Lemma skipn_length_app {A} (a b : list A) : skipn (length a) (a ++ b) = b.
Proof. induction a as [|x a IH]; [reflexivity|exact IH]. Qed.

(* ------------------------------------------------------------------ *)
(** ** Search and extract *)

Section Search.

Variable env : Env.

(** The [try] statement never raises, leaves the files alone, and either
    keeps [results] or appends the record built from the page. *)
Lemma try_fetch_cases (target : Py.str) (res : SearchHit)
    (results : list ExtractionRecord) (w : World) :
  files (snd (try_fetch env target res results w)) = files w /\
  ((exists soup, fetch env (trace w) target = inl soup /\
      fst (try_fetch env target res results w)
        = Ok (results ++ [build_record target res soup])) \/
   (exists msg, fetch env (trace w) target = inr msg /\
      fst (try_fetch env target res results w) = Ok results)).
Proof.
  unfold try_fetch. destruct (fetch env (trace w) target) as [soup|msg]; simpl.
  - split; [reflexivity|]. left. now exists soup.
  - split; [reflexivity|]. right. now exists msg.
Qed.

Lemma built_from_cons (res : SearchHit) (hits : list SearchHit)
    (r : ExtractionRecord) :
  built_from env hits r -> built_from env (res :: hits) r.
Proof.
  intros (res' & soup & t & Hin & Hu & Hf & Hr).
  exists res', soup, t. repeat split; auto. now right.
Qed.

(** One turn of the loop: files untouched; on return, [results] grew by at
    most one record, built from the entry at hand. *)
Lemma loop_body_cases (p : provider) (res : SearchHit)
    (results : list ExtractionRecord) (w : World) :
  files (snd (loop_body p env res results w)) = files w /\
  forall rs, fst (loop_body p env res results w) = Ok rs ->
    rs = results \/
    exists r, rs = results ++ [r] /\ built_from env [res] r.
Proof.
  assert (T : forall target, hit_url res = Some target ->
            files (snd (try_fetch env target res results w)) = files w /\
            forall rs, fst (try_fetch env target res results w) = Ok rs ->
              rs = results \/
              exists r, rs = results ++ [r] /\ built_from env [res] r).
  { intros target Hu.
    destruct (try_fetch_cases target res results w)
      as [Hf [(soup & Hs & E)|(msg & Hs & E)]]; split; auto;
      intros rs Hrs; rewrite E in Hrs; injection Hrs as <-; [|now left].
    right. exists (build_record target res soup). split; [reflexivity|].
    exists res, soup, (trace w). simpl. auto. }
  unfold loop_body. destruct p.
  - destruct (hit_url res) as [target|]; [now apply T|].
    split; [reflexivity|]. discriminate.
  - destruct (hit_url res) as [[|c target]|]; simpl.
    + split; [reflexivity|]. intros rs [= <-]. now left.
    + now apply T.
    + split; [reflexivity|]. intros rs [= <-]. now left.
Qed.

(** The loop: files untouched; on return, [results] grew by records built
    from entries of the provider's list. *)
Lemma search_loop_built (p : provider) (hits : list SearchHit) :
  forall (results : list ExtractionRecord) (w : World),
  files (snd (search_loop p env hits results w)) = files w /\
  forall rs, fst (search_loop p env hits results w) = Ok rs ->
    exists added, rs = results ++ added /\ Forall (built_from env hits) added.
Proof.
  induction hits as [|res rest IH]; intros results w; simpl.
  - split; [reflexivity|]. intros rs [= <-]. exists []. now rewrite app_nil_r.
  - unfold bind.
    destruct (loop_body_cases p res results w) as [Hf Hb].
    destruct (loop_body p env res results w) as [[rs1|e] w1]; simpl in *.
    + destruct (IH rs1 w1) as [Hf' Hb']. split; [congruence|].
      intros rs Hrs. destruct (Hb' rs Hrs) as (added & -> & Hall).
      assert (Hall' : Forall (built_from env (res :: rest)) added).
      { eapply Forall_impl; [|exact Hall]. intros r. apply built_from_cons. }
      destruct (Hb rs1 eq_refl) as [->|(r & -> & Hr)].
      * now exists added.
      * exists (r :: added). rewrite <- app_assoc. split; [reflexivity|].
        constructor; [|exact Hall'].
        destruct Hr as (res' & soup & t & [<-|[]] & Hu & Hfe & Hr).
        exists res, soup, t. repeat split; auto. now left.
    + split; [exact Hf|]. discriminate.
Qed.

(** [gather] never touches the files. *)
Lemma gather_files (p : provider) (query : Py.str) (w : World) :
  files (snd (gather p env query w)) = files w.
Proof.
  unfold gather, bind, provider_results.
  destruct (find env (trace w) p query) as [[hits|]|]; simpl; auto.
  now rewrite (proj1 (search_loop_built p hits [] _)).
Qed.

(** With Serper the loop always runs to its end. *)
Lemma search_loop_Serper_returns (hits : list SearchHit) :
  forall (results : list ExtractionRecord) (w : World),
  returned (search_loop Serper env hits results w) = true.
Proof.
  induction hits as [|res rest IH]; intros results w; simpl; [reflexivity|].
  unfold bind, loop_body.
  destruct (negb _).
  - apply IH.
  - destruct (try_fetch_cases (match hit_url res with Some u => u | None => [] end)
                res results w) as [_ [(soup & _ & E)|(msg & _ & E)]];
      destruct (try_fetch _ _ _ _ _) as [[rs|e] w1]; simpl in E;
      try discriminate; apply IH.
Qed.

(** With Brave it does so when every entry has an address. *)
Lemma search_loop_Brave_returns (hits : list SearchHit) :
  Forall (fun res => hit_url res <> None) hits ->
  forall (results : list ExtractionRecord) (w : World),
  returned (search_loop Brave env hits results w) = true.
Proof.
  induction 1 as [|res rest Hres Hrest IH]; intros results w; simpl;
    [reflexivity|].
  unfold bind, loop_body.
  destruct (hit_url res) as [target|]; [|contradiction].
  destruct (try_fetch_cases target res results w)
    as [_ [(soup & _ & E)|(msg & _ & E)]];
    destruct (try_fetch _ _ _ _ _) as [[rs|e] w1]; simpl in E;
    try discriminate; apply IH.
Qed.

End Search.

(** C3.  [built] is the list [results] that the loop of [search] has built
    when it ends.  Whenever a call builds such a list, it returns and
    results.json then holds the earlier corpus followed by [built], in that
    order, written in one piece; a call that raises before that point leaves
    the files as they were.  In both cases the corpus is at least as long
    after the call as before it. *)
Theorem search_appends_batch (p : provider) (env : Env) (query : Py.str)
    (w : World) :
  let r := search p env query w in
  match value (gather p env query w) with
  | Some built =>
      returned r = true /\
      files (snd r)
        = set_results (files w) (ResultsJson (load_corpus (files w) ++ built)) /\
      load_corpus (files (snd r)) = load_corpus (files w) ++ built
  | None => returned r = false /\ files (snd r) = files w
  end /\
  length (load_corpus (files w)) <= length (load_corpus (files (snd r))).
Proof.
  pose proof (gather_files env p query w) as Hf.
  unfold search, bind, value, returned.
  destruct (gather p env query w) as [[built|e] w1]; simpl in *.
  - unfold persist, bind, read_files, write_files. simpl. rewrite Hf.
    assert (L : forall fs rs, load_corpus (set_results fs (ResultsJson rs)) = rs)
      by reflexivity.
    rewrite !L. repeat split. rewrite length_app. lia.
  - rewrite Hf. repeat split. lia.
Qed.

Example search_appends_sample :
  load_corpus (files (snd (search Serper sample_env (Py.lit "q") used)))
  = old_records ++
    [ {| url := Py.lit "http://b"; title := Some (Py.lit "Doc B");
         text := Py.lit "hello world" |};
      {| url := Py.lit "http://c"; title := Some []; text := [] |} ].
Proof. reflexivity. Qed.

Lemma extract_title_as_built (res : SearchHit) (soup : Soup) :
  extract_title res soup = title_as_built (hit_title res) (soup_title soup).
Proof.
  unfold extract_title, title_hint, title_as_built, value_truthy.
  destruct (hit_title res) as [[[|c h]|]|]; simpl;
    destruct (soup_title soup); reflexivity.
Qed.

Lemma build_record_title (target : Py.str) (res : SearchHit) (soup : Soup) :
  title (build_record target res soup)
  = title_as_built (hit_title res) (soup_title soup).
Proof. apply extract_title_as_built. Qed.





Example title_cases :
  resolve_title (Some (Py.lit "A")) (Some (Py.lit "D")) = Py.lit "A" /\
  extract_title (hit None (Some [])) (page (Some (Some (Py.lit "D"))) None)
    = Some (Py.lit "D") /\
  extract_title (hit None None) (page (Some None) None) = None /\
  extract_title (hit None None) (page None None) = Some [] /\
  extract_title (untitled_hit []) (page None None) = None /\
  extract_title (untitled_hit []) (page (Some (Some (Py.lit "D"))) None)
    = Some (Py.lit "D").
Proof. repeat split; reflexivity. Qed.

(* ------------------------------------------------------------------ *)
(** ** Search: entries that cannot be fetched *)

Section SearchFailures.

Variable env : Env.

(** With Serper, [search] returns whenever the provider answers. *)
Lemma search_Serper_returns (query : Py.str) (w : World) :
  find env (trace w) Serper query <> None ->
  returned (search Serper env query w) = true.
Proof.
  intros H. unfold search, gather, bind, provider_results.
  destruct (find env (trace w) Serper query) as [[hits|]|];
    [| reflexivity | contradiction].
  pose proof (search_loop_Serper_returns env hits []
                {| files := files w;
                   trace := trace w ++ [ProviderSearch Serper query] |}) as R.
  destruct (search_loop Serper env hits [] _) as [[rs|e] w1];
    [reflexivity|discriminate].
Qed.

(** With Brave, it does when moreover every entry has an address. *)
Lemma search_Brave_returns (query : Py.str) (w : World)
    (hits : list SearchHit) :
  find env (trace w) Brave query = Some (Some hits) ->
  Forall (fun res => hit_url res <> None) hits ->
  returned (search Brave env query w) = true.
Proof.
  intros H Hall. unfold search, gather, bind, provider_results. rewrite H.
  pose proof (search_loop_Brave_returns env hits Hall []
                {| files := files w;
                   trace := trace w ++ [ProviderSearch Brave query] |}) as R.
  destruct (search_loop Brave env hits [] _) as [[rs|e] w1];
    [reflexivity|discriminate].
Qed.

(** Every record built, by either copy, has a text within the limit. *)
Lemma gathered_text_bounded (p : provider) (query : Py.str) (w : World)
    (rs : list ExtractionRecord) :
  value (gather p env query w) = Some rs ->
  Forall (fun r => text_bounded r = true) rs.
Proof.
  unfold gather, bind, value, provider_results. intros H.
  assert (G : forall hits w1, fst (search_loop p env hits [] w1) = Ok rs ->
            Forall (fun r => text_bounded r = true) rs).
  { intros hits w1 E.
    destruct (proj2 (search_loop_built env p hits [] w1) rs E)
      as (added & -> & Hall).
    simpl. eapply Forall_impl; [|exact Hall].
    intros r (res & soup & t & _ & _ & _ & ->).
    unfold text_bounded, build_record, Py.prefix. cbn [text].
    apply Nat.leb_le. rewrite length_firstn. apply Nat.le_min_l. }
  destruct (find env (trace w) p query) as [[hits|]|]; simpl in H.
  - destruct (search_loop p env hits [] _) as [[rs'|e] w1] eqn:E;
      simpl in H; [|discriminate].
    injection H as ->. eapply G. rewrite E. reflexivity.
  - injection H as <-. constructor.
  - discriminate.
Qed.

(** The Serper loop only ever appends records with a non-empty address. *)
Lemma search_loop_Serper_urls (hits : list SearchHit) :
  forall (results rs : list ExtractionRecord) (w : World),
  fst (search_loop Serper env hits results w) = Ok rs ->
  Forall (fun r => url_nonempty r = true) results ->
  Forall (fun r => url_nonempty r = true) rs.
Proof.
  induction hits as [|res rest IH]; intros results rs w; simpl.
  - now intros [= <-].
  - unfold bind, loop_body.
    destruct (Py.truthy _) eqn:T; simpl.
    + destruct (try_fetch_cases env
                  (match hit_url res with Some u => u | None => [] end)
                  res results w) as [_ [(soup & _ & E)|(msg & _ & E)]];
        destruct (try_fetch _ _ _ _ _) as [[rs1|e] w1]; simpl in E;
        try discriminate; injection E as ->; intros H Hres;
        apply (IH _ _ _ H); auto.
      apply Forall_app. split; [exact Hres|]. now repeat constructor.
    + apply IH.
Qed.

End SearchFailures.

(** [search] in one equation: the outcome of [gather], then the write. *)
Lemma search_outcome (p : provider) (env : Env) (query : Py.str) (w : World) :
  search p env query w
  = match gather p env query w with
    | (Ok built, w1) =>
        (Ok tt,
         {| files := set_results (files w)
                       (ResultsJson (load_corpus (files w) ++ built));
            trace := trace w1 |})
    | (Raise e, w1) => (Raise e, w1)
    end.
Proof.
  pose proof (gather_files env p query w) as Hf.
  unfold search, bind.
  destruct (gather p env query w) as [[built|e] w1]; [|reflexivity].
  unfold persist, bind, read_files, write_files. simpl in *. now rewrite Hf.
Qed.

(** The record invariant is kept by the Serper copies: if every record of
    the corpus has a non-empty address and a text within the limit before
    [search], so it is after. *)
Lemma search_Serper_keeps_invariant (env : Env) (query : Py.str) (w : World) :
  Forall (fun r => url_nonempty r = true /\ text_bounded r = true)
         (load_corpus (files w)) ->
  Forall (fun r => url_nonempty r = true /\ text_bounded r = true)
         (load_corpus (files (snd (search Serper env query w)))).
Proof.
  intros Hinv. rewrite search_outcome.
  pose proof (gathered_text_bounded env Serper query w) as Htext.
  pose proof (gather_files env Serper query w) as Hf.
  assert (Hurl : forall rs, value (gather Serper env query w) = Some rs ->
                   Forall (fun r => url_nonempty r = true) rs).
  { unfold gather, bind, value, provider_results. intros rs.
    destruct (find env (trace w) Serper query) as [[hits|]|]; simpl.
    - destruct (search_loop Serper env hits [] _) as [[rs'|e] w1] eqn:E;
        simpl; [|discriminate].
      intros [= <-]. eapply (search_loop_Serper_urls env hits [] rs').
      + rewrite E. reflexivity.
      + constructor.
    - intros [= <-]. constructor.
    - discriminate. }
  unfold value in Htext, Hurl.
  destruct (gather Serper env query w) as [[built|e] w1];
    cbn [fst snd files] in *.
  - assert (L : forall fs rs, load_corpus (set_results fs (ResultsJson rs)) = rs)
      by reflexivity.
    rewrite L. apply Forall_app. split; [exact Hinv|].
    specialize (Htext built eq_refl). specialize (Hurl built eq_refl).
    rewrite Forall_forall in *. intros r Hr. split; auto.
  - now rewrite Hf.
Qed.

Lemma try_fetch_success (env : Env) (target : Py.str) (res : SearchHit)
    (results : list ExtractionRecord) (w : World) (soup : Soup) :
  fetch env (trace w) target = inl soup ->
  try_fetch env target res results w
  = (Ok (results ++ [build_record target res soup]),
     {| files := files w;
        trace := (trace w ++ [PageFetch target]) ++ [Sleep 1] |}).
Proof. intros H. unfold try_fetch. now rewrite H. Qed.

(** Events of the loop when every page loads: each fetch is followed by
    its sleep, so the loop leaves no fetch pending. *)
Lemma search_loop_trace_success (env : Env) (p : provider)
    (hits : list SearchHit) :
  (forall t target, exists soup, fetch env t target = inl soup) ->
  forall (results : list ExtractionRecord) (w : World),
  exists evs,
    trace (snd (search_loop p env hits results w)) = trace w ++ evs /\
    forall rest, polite_from false (evs ++ rest) = polite_from false rest.
Proof.
  intros Hfetch.
  induction hits as [|res rest IH]; intros results w;
    cbn [search_loop].
  - exists []. split; [now rewrite app_nil_r|reflexivity].
  - assert (T : forall target,
              exists evs,
                trace (snd (bind (try_fetch env target res results)
                              (fun results' => search_loop p env rest results')
                              w))
                = trace w ++ evs /\
                forall tl, polite_from false (evs ++ tl) = polite_from false tl).
    { intros target. destruct (Hfetch (trace w) target) as [soup Hs].
      unfold bind. rewrite (try_fetch_success env target res results w soup Hs).
      destruct (IH (results ++ [build_record target res soup])
                  {| files := files w;
                     trace := (trace w ++ [PageFetch target]) ++ [Sleep 1] |})
        as (evs & Ht & Hp).
      exists ([PageFetch target; Sleep 1] ++ evs). split.
      - rewrite Ht. cbn [trace]. now rewrite <- !app_assoc.
      - intros tl. cbn. apply Hp. }
    unfold loop_body. destruct p.
    + destruct (hit_url res) as [target|]; [apply T|].
      exists []. split; [now rewrite app_nil_r|reflexivity].
    + destruct (negb _); [|apply T].
      unfold bind, ret. apply IH.
Qed.

(** When every page loads, the trace of a call is polite: a sleep of one
    second stands between any two fetches. *)
Lemma search_polite_when_pages_load (env : Env) (p : provider)
    (query : Py.str) (w : World) :
  (forall t target, exists soup, fetch env t target = inl soup) ->
  polite (emitted (search p env query) w) = true.
Proof.
  intros Hfetch.
  assert (E : exists evs,
            trace (snd (search p env query w)) = trace w ++ evs /\
            polite evs = true).
  { rewrite search_outcome.
    assert (G : exists evs,
              trace (snd (gather p env query w)) = trace w ++ evs /\
              polite evs = true).
    { unfold gather, bind, provider_results.
      destruct (find env (trace w) p query) as [[hits|]|].
      - destruct (search_loop_trace_success env p hits Hfetch []
                    {| files := files w;
                       trace := trace w ++ [ProviderSearch p query] |})
          as (evs & Ht & Hp).
        exists (ProviderSearch p query :: evs). split.
        + rewrite Ht. cbn [trace]. now rewrite <- app_assoc.
        + unfold polite. cbn [polite_from].
          rewrite <- (app_nil_r evs). now rewrite Hp.
      - exists [ProviderSearch p query]. now split.
      - exists [ProviderSearch p query]. now split. }
    destruct (gather p env query w) as [[built|e] w1]; exact G. }
  destruct E as (evs & Ht & Hp). unfold emitted. rewrite Ht.
  now rewrite skipn_length_app.
Qed.

(** C4.  Brave on a result list whose first entry has no url key: the
    lookup before the [try] raises KeyError out of [search], the second
    entry is never fetched and nothing is stored.  Serper on the same list
    skips the entry, fetches the second one and stores its record. *)
Theorem search_Brave_raises_on_missing_url :
  let brave := search Brave (network gappy_hits) (Py.lit "q") used in
  let serper := search Serper (network gappy_hits) (Py.lit "q") used in
  fst brave = Raise (KeyError (Py.lit "url")) /\
  fetches_of (emitted (search Brave (network gappy_hits) (Py.lit "q")) used)
    = [] /\
  files (snd brave) = files used /\
  fst serper = Ok tt /\
  fetches_of (emitted (search Serper (network gappy_hits) (Py.lit "q")) used)
    = [Py.lit "http://b"] /\
  load_corpus (files (snd serper))
    = old_records ++
      [ {| url := Py.lit "http://b"; title := Some (Py.lit "B");
           text := Py.lit "hello world" |} ].
Proof. repeat split; reflexivity. Qed.

(** Brave has no test on the address.  An entry without url key is not
    skipped: the call raises.  An entry whose url is the empty string is
    not skipped before fetching either: the fetch of the empty address is
    made and refused.  Serper skips both kinds of entry without
    fetching. *)
Example search_Brave_has_no_address_test :
  returned (search Brave (network gappy_hits) (Py.lit "q") used) = false /\
  returned (search Serper (network gappy_hits) (Py.lit "q") used) = true /\
  fetches_of (emitted (search Brave (network hollow_hits) (Py.lit "q")) used)
    = [ []; Py.lit "http://b" ] /\
  fetches_of (emitted (search Serper (network hollow_hits) (Py.lit "q")) used)
    = [ Py.lit "http://b" ].
Proof. repeat split; reflexivity. Qed.

(** C9.  Three entries, the first of which times out: the second page is
    fetched right after the failure is printed, with no sleep between the
    two fetches. *)
Theorem search_no_sleep_after_failed_fetch :
  emitted (search Serper sample_env (Py.lit "q")) used
  = [ ProviderSearch Serper (Py.lit "q");
      PageFetch (Py.lit "http://a");
      Print (error_line (Py.lit "http://a") (Py.lit "timed out"));
      PageFetch (Py.lit "http://b");
      Sleep 1;
      PageFetch (Py.lit "http://c");
      Sleep 1 ] /\
  polite (emitted (search Serper sample_env (Py.lit "q")) used) = false /\
  polite (emitted (search Brave sample_env (Py.lit "q")) used) = false.
Proof. repeat split; reflexivity. Qed.

(* ------------------------------------------------------------------ *)
(** ** Chunking *)

Section Chunking.

Variable size : nat.
Hypothesis size_pos : 0 < size.

Lemma ceil_div_bounds (n : nat) :
  n <= ceil_div n size * size /\ (0 < n -> (ceil_div n size - 1) * size < n).
Proof.
  unfold ceil_div.
  pose proof (Nat.div_mod_eq (n + (size - 1)) size) as E.
  pose proof (Nat.mod_upper_bound (n + (size - 1)) size) as B.
  split; [nia|]. intros Hn.
  assert (1 <= (n + (size - 1)) / size) by (apply Nat.div_str_pos; lia).
  nia.
Qed.

(** The comprehension, index by index. *)
Lemma chunks_of_seq (s : Py.str) :
  chunks_of size s
  = map (fun k => firstn size (skipn (k * size) s))
        (seq 0 (ceil_div (length s) size)).
Proof.
  unfold chunks_of, Py.range, Py.range_len, ceil_div, Py.slice.
  rewrite Nat.sub_0_r, map_map. apply map_ext. intros k.
  simpl. f_equal. lia.
Qed.

Lemma chunks_of_length (s : Py.str) :
  length (chunks_of size s) = ceil_div (length s) size.
Proof. now rewrite chunks_of_seq, length_map, length_seq. Qed.

Lemma chunks_of_nth (s : Py.str) (k : nat) :
  k < length (chunks_of size s) ->
  nth k (chunks_of size s) [] = firstn size (skipn (k * size) s).
Proof.
  rewrite chunks_of_length, chunks_of_seq. intros Hk.
  rewrite (nth_indep _ [] (firstn size (skipn (0 * size) s)))
    by now rewrite length_map, length_seq.
  rewrite (map_nth (fun k => firstn size (skipn (k * size) s))).
  now rewrite seq_nth.
Qed.

Lemma firstn_add_skipn (a b : nat) (s : Py.str) :
  firstn (a + b) s = firstn a s ++ firstn b (skipn a s).
Proof.
  revert s. induction a as [|a IH]; intros s; [reflexivity|].
  destruct s as [|c s]; simpl; [now rewrite firstn_nil|].
  now rewrite IH.
Qed.

Lemma concat_slices (s : Py.str) (m : nat) :
  concat (map (fun k => firstn size (skipn (k * size) s)) (seq 0 m))
  = firstn (m * size) s.
Proof.
  induction m as [|m IH]; [reflexivity|].
  rewrite seq_S, map_app, concat_app, IH. simpl.
  rewrite app_nil_r, <- firstn_add_skipn. f_equal. lia.
Qed.

(** The chunks, put end to end, give the text back. *)
Lemma chunks_of_concat (s : Py.str) : concat (chunks_of size s) = s.
Proof.
  rewrite chunks_of_seq, concat_slices. apply firstn_all2.
  apply ceil_div_bounds.
Qed.

Lemma chunks_of_consecutive (s : Py.str) :
  consecutive_slices size s (chunks_of size s).
Proof. intros k Hk. now apply chunks_of_nth. Qed.

Lemma chunks_of_fixed_size (s : Py.str) :
  fixed_size_but_last size (chunks_of size s).
Proof.
  intros k Hk. rewrite (chunks_of_nth s k Hk).
  rewrite chunks_of_length in *.
  rewrite length_firstn, length_skipn.
  destruct (ceil_div_bounds (length s)) as [Hup Hlow].
  assert (Hn : 0 < length s).
  { destruct (length s) eqn:E; [|lia].
    unfold ceil_div in Hk. simpl in Hk.
    rewrite Nat.div_small in Hk by lia. lia. }
  specialize (Hlow Hn).
  split; intros Hlast; [|nia].
  assert ((k + 1) * size <= (ceil_div (length s) size - 1) * size)
    by (apply Nat.mul_le_mono_r; lia).
  nia.
Qed.

(** More than one chunk exactly when the text is longer than [size]. *)
Lemma chunks_of_several (s : Py.str) :
  size < length s -> 2 <= length (chunks_of size s).
Proof.
  intros H. rewrite chunks_of_length.
  destruct (le_lt_dec 2 (ceil_div (length s) size)) as [|Hlt]; [assumption|].
  pose proof (proj1 (ceil_div_bounds (length s))). nia.
Qed.

End Chunking.

Example chunks_of_sample :
  chunks_of 4 (Py.lit "abcdefghij")
  = [Py.lit "abcd"; Py.lit "efgh"; Py.lit "ij"] /\
  chunks_of 5 (Py.lit "abcdefghij") = [Py.lit "abcde"; Py.lit "fghij"] /\
  chunks_of 4 [] = [].
Proof. repeat split; reflexivity. Qed.

(* ------------------------------------------------------------------ *)
(** ** Reporting *)

Lemma emitted_app {A} (m : M A) (w : World) (evs : list event) :
  trace (snd (m w)) = trace w ++ evs -> emitted m w = evs.
Proof. intros H. unfold emitted. rewrite H. apply skipn_length_app. Qed.

Lemma prompts_of_app (t u : list event) :
  prompts_of (t ++ u) = prompts_of t ++ prompts_of u.
Proof.
  induction t as [|e t IH]; [reflexivity|].
  destruct e; simpl; now rewrite IH.
Qed.

Lemma prompts_of_completions (texts : list Py.str) :
  prompts_of (map (fun c => Completion (summary_prompt c) 3) texts)
  = map summary_prompt texts.
Proof. induction texts as [|c l IH]; simpl; now rewrite ?IH. Qed.

Lemma full_text_blocks (rs : list ExtractionRecord) :
  full_text rs = blocks_with_blank_lines rs.
Proof.
  unfold full_text. induction rs as [|r rest IH]; [reflexivity|].
  destruct rest as [|r' rest']; [reflexivity|].
  change (Py.join BLANK_LINE (map source_block (r :: r' :: rest')))
    with (source_block r ++ BLANK_LINE
          ++ Py.join BLANK_LINE (map source_block (r' :: rest'))).
  rewrite IH. unfold source_block, BLANK_LINE.
  cbn [blocks_with_blank_lines]. now rewrite <- !app_assoc.
Qed.

Section Report.

Variable env : Env.

(** One summary with the Brave copy: one completion request at
    temperature 0.3, whose answer is returned trimmed. *)
Lemma summary_Brave (text : Py.str) (w : World) :
  _get_ai_summary Brave env text w
  = (match llm env (trace w) (summary_prompt text) 3 with
     | Some content => Ok (Py.strip content)
     | None => Raise RequestError
     end,
     {| files := files w;
        trace := trace w ++ [Completion (summary_prompt text) 3] |}).
Proof.
  unfold _get_ai_summary, bind, completion, ret.
  now destruct (llm env (trace w) (summary_prompt text) 3).
Qed.

(** The loop over the chunks, when it ends: one request per chunk, in
    order, and one summary each. *)
Lemma summarize_all_Brave (chunks : list Py.str) :
  forall (summaries : list Py.str) (w : World),
  let r := summarize_all Brave env chunks summaries w in
  files (snd r) = files w /\
  forall out, fst r = Ok out ->
    trace (snd r)
      = trace w ++ map (fun c => Completion (summary_prompt c) 3) chunks /\
    exists answers,
      out = summaries ++ answers /\ length answers = length chunks.
Proof.
  induction chunks as [|c rest IH]; intros summaries w; cbv zeta.
  - simpl. split; [reflexivity|]. intros out [= <-]. rewrite !app_nil_r.
    split; [reflexivity|]. exists []. now rewrite app_nil_r.
  - cbn [summarize_all]. unfold bind. rewrite summary_Brave.
    destruct (llm env (trace w) (summary_prompt c) 3) as [content|].
    + destruct (IH (summaries ++ [Py.strip content])
                  {| files := files w;
                     trace := trace w ++ [Completion (summary_prompt c) 3] |})
        as [Hf Hout].
      split; [exact Hf|]. intros out E.
      destruct (Hout out E) as (Ht & answers & -> & Hlen).
      split; [now rewrite Ht; simpl; rewrite <- app_assoc|].
      exists (Py.strip content :: answers).
      rewrite <- app_assoc. split; [reflexivity|]. simpl. now rewrite Hlen.
    + split; [reflexivity|]. discriminate.
Qed.

(** A run of [report] that returns, with the Brave copy and a corpus file
    holding a list: what was asked of the model, what was returned and
    what was written. *)
Lemma report_with_Brave_run (size : nat) (w : World)
    (rs : list ExtractionRecord) :
  results_file (files w) = Some (ResultsJson rs) ->
  returned (report_with size Brave env w) = true ->
  exists final,
    fst (report_with size Brave env w) = Ok final /\
    files (snd (report_with size Brave env w)) = set_report (files w) final /\
    if size <? length (full_text rs)
    then exists summaries,
           length summaries = length (chunks_of size (full_text rs)) /\
           emitted (report_with size Brave env) w
             = map (fun c => Completion (summary_prompt c) 3)
                   (chunks_of size (full_text rs))
               ++ [Completion (summary_prompt (Py.join BLANK_LINE summaries)) 3]
    else emitted (report_with size Brave env) w
           = [Completion (summary_prompt (full_text rs)) 3].
Proof.
  intros Hfile. unfold emitted, returned.
  unfold report_with, bind, read_files. cbn [fst snd]. rewrite Hfile.
  destruct (size <? length (full_text rs)).
  - destruct (summarize_all_Brave (chunks_of size (full_text rs)) [] w)
      as [Hf Hout]. cbn zeta in Hf, Hout.
    destruct (summarize_all Brave env _ [] w) as [[summaries|e] w1];
      cbn [fst snd] in *; [|discriminate].
    destruct (Hout summaries eq_refl) as (Ht & answers & E & Hlen).
    simpl in E. subst answers.
    rewrite summary_Brave.
    destruct (llm env (trace w1) _ 3) as [content|]; cbn; [|discriminate].
    intros _. exists (Py.strip content).
    split; [reflexivity|]. split; [now rewrite Hf|].
    exists summaries. split; [exact Hlen|].
    rewrite Ht, <- app_assoc. apply skipn_length_app.
  - rewrite summary_Brave.
    destruct (llm env (trace w) _ 3) as [content|]; cbn; [|discriminate].
    intros _. exists (Py.strip content).
    split; [reflexivity|]. split; [reflexivity|].
    apply skipn_length_app.
Qed.

(** When the model answers every request, the Brave copy's [report]
    returns. *)
Lemma report_with_Brave_returns (size : nat) (w : World) :
  (forall t prompt, llm env t prompt 3 <> None) ->
  returned (report_with size Brave env w) = true.
Proof.
  intros Hllm.
  assert (S : forall chunks summaries w0,
            returned (summarize_all Brave env chunks summaries w0) = true).
  { induction chunks as [|c rest IH]; intros summaries w0; [reflexivity|].
    cbn [summarize_all]. unfold bind. rewrite summary_Brave.
    destruct (llm env (trace w0) (summary_prompt c) 3) eqn:E;
      [apply IH | now apply Hllm in E]. }
  unfold report_with, bind, read_files, returned. cbn [fst snd].
  destruct (results_file (files w)) as [[|rs]|]; try reflexivity.
  destruct (size <? length (full_text rs)).
  - specialize (S (chunks_of size (full_text rs)) [] w).
    unfold returned in S.
    destruct (summarize_all Brave env _ [] w) as [[summaries|e] w1];
      cbn [fst snd] in *; [|discriminate].
    rewrite summary_Brave.
    destruct (llm env (trace w1) _ 3) eqn:E; [reflexivity | now apply Hllm in E].
  - rewrite summary_Brave.
    destruct (llm env (trace w) _ 3) eqn:E; [reflexivity | now apply Hllm in E].
Qed.

(** Without a corpus file, or with a blank one, [report] answers with the
    fixed sentence, asks nothing of the model and writes nothing. *)
Lemma report_without_storage (p : provider) (w : World) :
  results_file (files w) = None \/ results_file (files w) = Some ResultsBlank ->
  report p env w = (Ok NO_RESULTS, w).
Proof.
  intros [H|H]; unfold report, report_with, bind, read_files; cbn [fst snd];
    now rewrite H.
Qed.

(** The Serper copies cannot summarise: with a corpus file holding a list,
    [report] raises AttributeError before any request. *)
Lemma report_Serper_raises (w : World) (rs : list ExtractionRecord) :
  results_file (files w) = Some (ResultsJson rs) ->
  report Serper env w
  = (Raise (AttributeError (Py.lit "openrouter_api_key")), w).
Proof.
  intros H. unfold report, report_with, bind, read_files. cbn [fst snd].
  rewrite H. destruct (CHUNK_SIZE <? length (full_text rs)); [|reflexivity].
  destruct (chunks_of CHUNK_SIZE (full_text rs)) as [|c rest] eqn:E;
    [|reflexivity].
  reflexivity.
Qed.

End Report.

Lemma CHUNK_SIZE_pos : 0 < CHUNK_SIZE.
Proof.
  unfold CHUNK_SIZE. change (MAX_TOKENS * 5 / 2)%N with 250000%N. lia.
Qed.

(** Prompts sent by a run of [report] that returns, for any chunk size. *)
Lemma report_with_prompts (size : nat) (env : Env) (w : World)
    (rs : list ExtractionRecord) :
  results_file (files w) = Some (ResultsJson rs) ->
  returned (report_with size Brave env w) = true ->
  if size <? length (full_text rs)
  then exists summaries,
         length summaries = length (chunks_of size (full_text rs)) /\
         prompts_of (emitted (report_with size Brave env) w)
           = map summary_prompt (chunks_of size (full_text rs))
             ++ [summary_prompt (Py.join BLANK_LINE summaries)]
  else prompts_of (emitted (report_with size Brave env) w)
         = [summary_prompt (full_text rs)].
Proof.
  intros Hfile Hret.
  destruct (report_with_Brave_run env size w rs Hfile Hret)
    as (final & _ & _ & Hrun).
  destruct (size <? length (full_text rs)).
  - destruct Hrun as (summaries & Hlen & ->). exists summaries.
    split; [exact Hlen|].
    rewrite prompts_of_app, prompts_of_completions. reflexivity.
  - rewrite Hrun. reflexivity.
Qed.

Lemma answer_at_head (env : Env) (t : list event) (c : Py.str)
    (rest : list Py.str) :
  answer_at env t (c :: rest) 0 = llm env t (summary_prompt c) 3.
Proof.
  unfold answer_at, asked_after. cbn [firstn nth map]. now rewrite app_nil_r.
Qed.

Lemma answer_at_cons (env : Env) (t : list event) (c : Py.str)
    (rest : list Py.str) (i : nat) :
  answer_at env t (c :: rest) (S i)
  = answer_at env (t ++ [Completion (summary_prompt c) 3]) rest i.
Proof.
  unfold answer_at, asked_after. cbn [firstn nth map].
  now rewrite <- app_assoc.
Qed.

(** The loop over the chunks in full.  When it ends, every chunk was asked
    for, in order, and the list grew by the model's answers, trimmed.  When
    it raises, the requests stop with the first one that failed. *)
Lemma summarize_all_Brave_answers (env : Env) (chunks : list Py.str) :
  forall (summaries : list Py.str) (w : World),
  match fst (summarize_all Brave env chunks summaries w) with
  | Ok out =>
      trace (snd (summarize_all Brave env chunks summaries w))
        = asked_after (trace w) chunks /\
      exists answers,
        out = summaries ++ answers /\
        summaries_of env (trace w) chunks answers
  | Raise e =>
      e = RequestError /\
      exists k,
        first_failure env (trace w) chunks k /\
        trace (snd (summarize_all Brave env chunks summaries w))
          = asked_after (trace w) (firstn (S k) chunks)
  end.
Proof.
  induction chunks as [|c rest IH]; intros summaries w.
  - cbn [summarize_all ret fst snd]. unfold asked_after. cbn [map].
    rewrite app_nil_r. split; [reflexivity|]. exists [].
    rewrite app_nil_r. split; [reflexivity|]. split; [reflexivity|].
    intros i Hi. cbn in Hi. lia.
  - cbn [summarize_all]. unfold bind. rewrite summary_Brave.
    destruct (llm env (trace w) (summary_prompt c) 3) as [content|] eqn:L.
    + specialize (IH (summaries ++ [Py.strip content])
                     {| files := files w;
                        trace := trace w ++ [Completion (summary_prompt c) 3] |}).
      destruct (summarize_all Brave env rest _ _) as [[out|e] w2];
        cbn [fst snd trace] in *.
      * destruct IH as (Ht & answers & -> & Hlen & Hans).
        split.
        { rewrite Ht. unfold asked_after. cbn [map]. now rewrite <- app_assoc. }
        exists (Py.strip content :: answers). rewrite <- app_assoc.
        split; [reflexivity|]. split; [cbn [length]; now rewrite Hlen|].
        intros [|i] Hi.
        -- exists content. rewrite answer_at_head. now split.
        -- rewrite answer_at_cons. cbn [nth]. apply Hans.
           cbn [length] in Hi. lia.
      * destruct IH as (-> & k & (Hk & Hbefore & Hfail) & Ht).
        split; [reflexivity|]. exists (S k). split.
        { split; [cbn [length]; lia|]. split.
          - intros [|i] Hi.
            + rewrite answer_at_head, L. discriminate.
            + rewrite answer_at_cons. apply Hbefore. lia.
          - now rewrite answer_at_cons. }
        rewrite Ht. unfold asked_after. cbn [firstn map].
        now rewrite <- app_assoc.
    + cbn [fst snd trace]. split; [reflexivity|]. exists 0. split.
      { split; [cbn [length]; lia|]. split; [intros i Hi; lia|].
        now rewrite answer_at_head. }
      reflexivity.
Qed.

(** A run of the Brave copy's [report] on a blob longer than the chunk
    size.  Either every chunk got its summary, and the joined summaries
    went to the model in one last request, whose answer, trimmed, is
    returned and stored; or the request for some chunk failed, the first
    such request was the last one made, and the run raised with the files
    as they were. *)
Lemma report_with_Brave_chunked (size : nat) (env : Env) (w : World)
    (rs : list ExtractionRecord) :
  results_file (files w) = Some (ResultsJson rs) ->
  size < length (full_text rs) ->
  let chunks := chunks_of size (full_text rs) in
  let r := report_with size Brave env w in
  (exists summaries,
     summaries_of env (trace w) chunks summaries /\
     emitted (report_with size Brave env) w
       = map (fun c => Completion (summary_prompt c) 3) chunks
         ++ [Completion (summary_prompt (Py.join BLANK_LINE summaries)) 3] /\
     match llm env (asked_after (trace w) chunks)
               (summary_prompt (Py.join BLANK_LINE summaries)) 3 with
     | Some content =>
         fst r = Ok (Py.strip content) /\
         files (snd r) = set_report (files w) (Py.strip content)
     | None => fst r = Raise RequestError /\ files (snd r) = files w
     end) \/
  (exists k,
     first_failure env (trace w) chunks k /\
     emitted (report_with size Brave env) w
       = map (fun c => Completion (summary_prompt c) 3) (firstn (S k) chunks) /\
     fst r = Raise RequestError /\
     files (snd r) = files w).
Proof.
  intros Hfile Hlong chunks r. subst r. unfold emitted.
  unfold report_with, bind, read_files. cbn [fst snd]. rewrite Hfile.
  apply Nat.ltb_lt in Hlong. rewrite Hlong. fold chunks.
  pose proof (summarize_all_Brave_answers env chunks [] w) as H.
  pose proof (proj1 (summarize_all_Brave env chunks [] w)) as Hf.
  cbv zeta in Hf.
  destruct (summarize_all Brave env chunks [] w) as [[summaries|e] w1];
    cbn [fst snd] in *.
  - left. destruct H as (Ht & answers & E & Hans).
    cbn [app] in E. subst answers. exists summaries.
    split; [exact Hans|].
    rewrite summary_Brave, Ht.
    destruct (llm env (asked_after (trace w) chunks) _ 3) as [content|];
      unfold write_files, ret; cbn [fst snd files trace];
      (split; [unfold asked_after; rewrite <- app_assoc;
               apply skipn_length_app|]);
      rewrite ?Hf; now split.
  - right. destruct H as (-> & k & Hfirst & Ht). exists k.
    split; [exact Hfirst|]. rewrite Ht. unfold asked_after.
    rewrite skipn_length_app. now repeat split.
Qed.

Lemma source_block_length (r : ExtractionRecord) :
  length (text r) <= length (source_block r).
Proof. unfold source_block. rewrite !length_app. lia. Qed.

Lemma full_text_length_cons (r r' : ExtractionRecord)
    (rest : list ExtractionRecord) :
  length (full_text (r :: r' :: rest))
  = length (source_block r) + 2 + length (full_text (r' :: rest)).
Proof.
  unfold full_text. cbn [map Py.join]. rewrite !length_app.
  unfold BLANK_LINE. cbn [length]. lia.
Qed.

Lemma long_page_block (c : N) :
  TEXT_LIMIT <= length (source_block (long_page c)).
Proof.
  pose proof (source_block_length (long_page c)) as H.
  replace (length (text (long_page c))) with TEXT_LIMIT in H
    by (symmetry; apply repeat_length).
  exact H.
Qed.

(** The blob of the long corpus does not fit in one chunk. *)
Lemma long_corpus_exceeds : CHUNK_SIZE < length (full_text long_corpus).
Proof.
  unfold long_corpus. rewrite !full_text_length_cons.
  change (full_text [long_page 99%N]) with (source_block (long_page 99%N)).
  generalize (long_page_block 97%N) (long_page_block 98%N)
             (long_page_block 99%N).
  generalize (length (source_block (long_page 97%N))).
  generalize (length (source_block (long_page 98%N))).
  generalize (length (source_block (long_page 99%N))).
  unfold CHUNK_SIZE, TEXT_LIMIT.
  change (MAX_TOKENS * 5 / 2)%N with 250000%N. lia.
Qed.

(** C1.  With the Brave copy, a corpus file holding the list [rs] and a run
    of [report] that returns: when the blob has at most 250000 characters
    the model is asked once, for the blob; when it has more, it is asked
    once per chunk, in order, and then once more, for the text made of the
    model's answers to the chunk requests, each trimmed, joined by blank
    lines, in one piece whatever the length of that text.  With [C]
    chunks, [C] being the blob length divided by 250000 and rounded up,
    that is [C + 1] requests. *)
Theorem report_summary_calls (env : Env) (w : World)
    (rs : list ExtractionRecord) :
  results_file (files w) = Some (ResultsJson rs) ->
  returned (report Brave env w) = true ->
  let blob := full_text rs in
  let chunks := chunks_of CHUNK_SIZE blob in
  let calls := prompts_of (emitted (report Brave env) w) in
  (length blob <= CHUNK_SIZE -> calls = [summary_prompt blob]) /\
  (CHUNK_SIZE < length blob ->
     length chunks = ceil_div (length blob) CHUNK_SIZE /\
     length calls = ceil_div (length blob) CHUNK_SIZE + 1 /\
     exists summaries,
       length summaries = ceil_div (length blob) CHUNK_SIZE /\
       (forall i, i < length chunks ->
          exists content,
            answer_at env (trace w) chunks i = Some content /\
            nth i summaries [] = Py.strip content) /\
       calls = map summary_prompt chunks
               ++ [summary_prompt (Py.join BLANK_LINE summaries)]).
Proof.
  unfold report. generalize CHUNK_SIZE_pos. generalize CHUNK_SIZE.
  intros size Hpos Hfile Hret.
  pose proof (report_with_prompts size env w rs Hfile Hret) as Hrun.
  pose proof (report_with_Brave_chunked size env w rs Hfile) as Hlong.
  cbv zeta in Hlong.
  set (blob := full_text rs) in *.
  set (chunks := chunks_of size blob) in *.
  set (calls := prompts_of (emitted (report_with size Brave env) w)) in *.
  destruct (size <? length blob) eqn:E.
  - apply Nat.ltb_lt in E. split; [lia|]. intros _.
    assert (Hlen : length chunks = ceil_div (length blob) size)
      by apply (chunks_of_length size Hpos).
    destruct (Hlong E)
      as [(summaries & (Hl & Hans) & Hev & _)|(k & _ & _ & Hraise & _)].
    + assert (Hcalls : calls = map summary_prompt chunks
                               ++ [summary_prompt
                                     (Py.join BLANK_LINE summaries)]).
      { unfold calls. rewrite Hev, prompts_of_app, prompts_of_completions.
        reflexivity. }
      split; [exact Hlen|]. split.
      * rewrite Hcalls, length_app, length_map, Hlen. reflexivity.
      * exists summaries. rewrite <- Hlen. now repeat split.
    + unfold returned in Hret. rewrite Hraise in Hret. discriminate.
  - apply Nat.ltb_ge in E. split; [exact (fun _ => Hrun)|lia].
Qed.

Lemma report_summary_calls_witness :
  let blob := full_text long_corpus in
  let chunks := chunks_of CHUNK_SIZE blob in
  let calls := prompts_of (emitted (report Brave sample_env) long_world) in
  CHUNK_SIZE < length blob /\
  length chunks = ceil_div (length blob) CHUNK_SIZE /\
  length calls = ceil_div (length blob) CHUNK_SIZE + 1 /\
  exists summaries,
    length summaries = ceil_div (length blob) CHUNK_SIZE /\
    (forall i, i < length chunks ->
       exists content,
         answer_at sample_env (trace long_world) chunks i = Some content /\
         nth i summaries [] = Py.strip content) /\
    calls = map summary_prompt chunks
            ++ [summary_prompt (Py.join BLANK_LINE summaries)].
Proof.
  split; [exact long_corpus_exceeds|].
  apply (proj2 (report_summary_calls sample_env long_world long_corpus
                  eq_refl
                  (report_with_Brave_returns sample_env CHUNK_SIZE long_world
                     (fun t prompt (H : Some sample_response = None) =>
                        eq_ind (Some sample_response)
                               (fun o => match o with
                                         | Some _ => True
                                         | None => False
                                         end)
                               I None H)))).
  exact long_corpus_exceeds.
Defined.

(** One level of reduction, seen with a chunk size of 4: the joined
    summaries (22 characters) go to the model in one piece. *)
Example report_single_level :
  prompts_of (emitted (report_with 4 Brave sample_env)
                {| files := set_results (files used)
                              (ResultsJson [ {| url := []; title := None;
                                                text := [] |} ]);
                   trace := [] |})
  = map summary_prompt
      [ Py.lit "Sour"; Py.lit "ce: "; [Py.NL];
        (Py.lit "alpha" ++ [10; 32; 10] ++ Py.lit " beta" ++ [10; 10]
         ++ Py.lit "alpha" ++ [10; 32; 10] ++ Py.lit " beta" ++ [10; 10]
         ++ Py.lit "alpha" ++ [10; 32; 10] ++ Py.lit " beta")%N ].
Proof. reflexivity. Qed.

(** C7.  With the Brave copy, a corpus file holding the list [rs] and a run
    of [report] that returns.  The blob is the blocks "Source: url, newline,
    text" of the records, in corpus order, with a blank line between two
    blocks.  When it fits in 250000 characters it is what the model is asked
    to summarise.  When it does not, the first requests are for the chunks,
    in order; chunk [k] is the slice of the blob from position
    [k * 250000] to position [(k + 1) * 250000]; every chunk but the last
    has exactly 250000 characters and the last has between 1 and 250000;
    the chunks put end to end are the blob. *)
Theorem report_blob_chunks (env : Env) (w : World)
    (rs : list ExtractionRecord) :
  results_file (files w) = Some (ResultsJson rs) ->
  returned (report Brave env w) = true ->
  let blob := blocks_with_blank_lines rs in
  let chunks := chunks_of CHUNK_SIZE blob in
  let calls := prompts_of (emitted (report Brave env) w) in
  (length blob <= CHUNK_SIZE -> calls = [summary_prompt blob]) /\
  (CHUNK_SIZE < length blob ->
     2 <= length chunks /\
     firstn (length chunks) calls = map summary_prompt chunks) /\
  consecutive_slices CHUNK_SIZE blob chunks /\
  fixed_size_but_last CHUNK_SIZE chunks /\
  concat chunks = blob.
Proof.
  unfold report. generalize CHUNK_SIZE_pos. generalize CHUNK_SIZE.
  intros size Hpos Hfile Hret.
  pose proof (report_with_prompts size env w rs Hfile Hret) as Hrun.
  rewrite full_text_blocks in Hrun.
  set (blob := blocks_with_blank_lines rs) in *.
  set (chunks := chunks_of size blob) in *.
  set (calls := prompts_of (emitted (report_with size Brave env) w)) in *.
  split; [|split].
  - intros Hshort. apply Nat.ltb_ge in Hshort. now rewrite Hshort in Hrun.
  - intros Hlong. split; [now apply chunks_of_several|].
    apply Nat.ltb_lt in Hlong. rewrite Hlong in Hrun.
    destruct Hrun as (summaries & _ & ->).
    rewrite <- (length_map summary_prompt chunks).
    rewrite firstn_app, Nat.sub_diag, firstn_all. simpl. apply app_nil_r.
  - split; [now apply chunks_of_consecutive|].
    split; [now apply chunks_of_fixed_size|now apply chunks_of_concat].
Qed.

Lemma report_blob_chunks_witness :
  let blob := blocks_with_blank_lines old_records in
  let chunks := chunks_of CHUNK_SIZE blob in
  let calls := prompts_of (emitted (report Brave sample_env) used) in
  (length blob <= CHUNK_SIZE -> calls = [summary_prompt blob]) /\
  (CHUNK_SIZE < length blob ->
     2 <= length chunks /\
     firstn (length chunks) calls = map summary_prompt chunks) /\
  consecutive_slices CHUNK_SIZE blob chunks /\
  fixed_size_but_last CHUNK_SIZE chunks /\
  concat chunks = blob.
Proof.
  exact (report_blob_chunks sample_env used old_records eq_refl eq_refl).
Defined.

Example blob_sample :
  full_text old_records
  = Py.lit "Source: http://x" ++ [Py.NL] ++ Py.lit "first page"
    ++ [Py.NL; Py.NL] ++ Py.lit "Source: http://y" ++ [Py.NL].
Proof. reflexivity. Qed.

(** C10.  What a call returns is what it has stored.  When [get_querries]
    returns a list, querries.json holds that list after the call.  When
    [report] returns a text and the corpus file held a list, report.json
    holds that text after the call. *)
Theorem returned_value_is_persisted (p : provider) (env : Env) (w : World) :
  (forall theme qs,
     value (get_querries env theme w) = Some qs ->
     queries_file (files (snd (get_querries env theme w)))
       = Some (QueriesJson qs)) /\
  (forall rs final_report,
     results_file (files w) = Some (ResultsJson rs) ->
     value (report p env w) = Some final_report ->
     report_file (files (snd (report p env w))) = Some final_report).
Proof.
  split.
  - intros theme qs.
    unfold get_querries, bind, completion, read_files, write_files, ret, value.
    destruct (llm env (trace w) (queries_prompt theme) 7) as [content|];
      cbn [fst snd files]; [|discriminate].
    now intros [= <-].
  - intros rs final_report Hfile. destruct p.
    + intros Hval.
      assert (Hret : returned (report Brave env w) = true).
      { unfold returned. unfold value in Hval.
        destruct (fst (report Brave env w)); [reflexivity|discriminate]. }
      destruct (report_with_Brave_run env CHUNK_SIZE w rs Hfile Hret)
        as (final & Hfst & Hfiles & _).
      fold (report Brave env w) in Hfst, Hfiles.
      unfold value in Hval. rewrite Hfst in Hval. injection Hval as <-.
      rewrite Hfiles. reflexivity.
    + rewrite (report_Serper_raises env w rs Hfile). discriminate.
Qed.

Lemma returned_value_is_persisted_witness :
  queries_file (files (snd (get_querries sample_env (Py.lit "solar") used)))
    = Some (QueriesJson [Py.lit "alpha"; Py.lit "beta"]) /\
  report_file (files (snd (report Brave sample_env used)))
    = Some (Py.strip sample_response).
Proof.
  split.
  - exact (proj1 (returned_value_is_persisted Brave sample_env used)
             (Py.lit "solar") [Py.lit "alpha"; Py.lit "beta"] eq_refl).
  - exact (proj2 (returned_value_is_persisted Brave sample_env used)
             old_records (Py.strip sample_response) eq_refl eq_refl).
Defined.

(** C2.  A session that has only run [__init__]: results.json exists and
    holds the empty list, so the test on the file passes; [report] asks the
    model to summarise the empty text, returns its answer, not the fixed
    sentence, and overwrites report.json. *)
Theorem report_on_empty_list_asks_model :
  results_file (files fresh) = Some (ResultsJson []) /\
  load_corpus (files fresh) = [] /\
  fst (report Brave sample_env fresh) = Ok (Py.strip sample_response) /\
  Py.strip sample_response <> NO_RESULTS /\
  emitted (report Brave sample_env) fresh = [Completion (summary_prompt []) 3] /\
  report_file (files fresh) = Some [] /\
  report_file (files (snd (report Brave sample_env fresh)))
    = Some (Py.strip sample_response).
Proof. repeat split; try reflexivity. discriminate. Qed.

(* ------------------------------------------------------------------ *)
(** ** Further properties: query generation *)

Section MoreStringFacts.

Import Py.

Lemma lstrip_idem (s : str) : lstrip (lstrip s) = lstrip s.
Proof.
  destruct (lstrip_head s) as [E|(c & r & E & Hc)]; rewrite E;
    [reflexivity|]. simpl. now rewrite Hc.
Qed.

Lemma lstrip_app_nonspace (c : char) (u : str) :
  isspace c = false -> lstrip (u ++ [c]) = lstrip u ++ [c].
Proof.
  intros H. induction u as [|a u IH]; simpl.
  - now rewrite H.
  - destruct (isspace a); [exact IH|reflexivity].
Qed.

Lemma rstrip_cons_nonspace (c : char) (r : str) :
  isspace c = false -> rstrip (c :: r) = c :: rstrip r.
Proof.
  intros H. unfold rstrip. simpl.
  rewrite (lstrip_app_nonspace c (rev r) H), rev_app_distr. reflexivity.
Qed.

Lemma rstrip_idem (s : str) : rstrip (rstrip s) = rstrip s.
Proof. unfold rstrip. now rewrite rev_involutive, lstrip_idem. Qed.

(** Trimming twice is trimming once. *)
Lemma strip_idem (s : str) : strip (strip s) = strip s.
Proof.
  unfold strip at 1.
  assert (L : lstrip (strip s) = strip s).
  { unfold strip. destruct (lstrip_head s) as [E|(c & r & E & Hc)]; rewrite E;
      [reflexivity|].
    rewrite (rstrip_cons_nonspace c r Hc). simpl. now rewrite Hc. }
  rewrite L. unfold strip. apply rstrip_idem.
Qed.

Lemma In_lstrip (c : char) (s : str) : In c (lstrip s) -> In c s.
Proof.
  induction s as [|a s IH]; simpl; [tauto|].
  destruct (isspace a); [|tauto]. intros H. right. now apply IH.
Qed.

Lemma In_strip (c : char) (s : str) : In c (strip s) -> In c s.
Proof.
  unfold strip, rstrip. intros H.
  apply In_lstrip, In_rev. apply In_lstrip. now apply In_rev in H.
Qed.

(** No piece of a split holds the separator. *)
Lemma split_on_no_sep (sep : char) (s : str) :
  Forall (fun piece => ~ In sep piece) (split_on sep s).
Proof.
  induction s as [|c s IH]; simpl.
  - constructor; [tauto|constructor].
  - destruct (c =? sep)%N eqn:E.
    + constructor; [tauto|exact IH].
    + apply N.eqb_neq in E.
      destruct (split_on sep s) as [|piece rest]; simpl.
      * constructor; [|constructor]. simpl. intros [H|[]]. congruence.
      * inversion IH as [|? ? Hp Hr]; subst.
        constructor; [|exact Hr]. simpl. intros [H|H]; [congruence|tauto].
Qed.

Lemma blank_lstrip (s : str) : blank s = true -> lstrip s = [].
Proof.
  induction s as [|c s IH]; simpl; [reflexivity|].
  intros H. apply andb_true_iff in H. destruct H as [Hc Hs].
  rewrite Hc. now apply IH.
Qed.

Lemma blank_strip_nil (s : str) : blank s = true -> strip s = [].
Proof. intros H. unfold strip. now rewrite (blank_lstrip s H). Qed.

End MoreStringFacts.

(** [get_querries] in one equation. *)
Lemma get_querries_run (env : Env) (theme : Py.str) (w : World) :
  get_querries env theme w
  = match llm env (trace w) (queries_prompt theme) 7 with
    | Some content =>
        (Ok (lines_trimmed_nonblank content),
         {| files := set_queries (files w)
                       (QueriesJson (lines_trimmed_nonblank content));
            trace := trace w ++ [Completion (queries_prompt theme) 7] |})
    | None =>
        (Raise RequestError,
         {| files := files w;
            trace := trace w ++ [Completion (queries_prompt theme) 7] |})
    end.
Proof.
  unfold get_querries, bind, completion, read_files, write_files, ret.
  destruct (llm env (trace w) (queries_prompt theme) 7) as [content|];
    [|reflexivity].
  cbn -[lines_trimmed_nonblank clean_queries Py.strip].
  now rewrite clean_queries_lines, lines_strip.
Qed.

(** X1.  Every query that [get_querries] returns is non-empty, is its own
    trimmed form (no whitespace at either end) and holds no newline: one
    clean line each. *)
Theorem get_querries_entries_clean (env : Env) (theme : Py.str) (w : World)
    (qs : list Py.str) :
  value (get_querries env theme w) = Some qs ->
  Forall (fun q => q <> [] /\ Py.strip q = q /\ ~ In Py.NL q) qs.
Proof.
  rewrite get_querries_run. unfold value.
  destruct (llm env (trace w) (queries_prompt theme) 7) as [content|];
    simpl; [|discriminate].
  intros [= <-]. apply Forall_forall. intros q Hq.
  unfold lines_trimmed_nonblank in Hq. apply filter_In in Hq.
  destruct Hq as [Hin Hnb]. apply in_map_iff in Hin.
  destruct Hin as (piece & <- & Hpiece).
  split; [|split].
  - intros E. rewrite E in Hnb. discriminate.
  - apply strip_idem.
  - intros Hnl. apply In_strip in Hnl.
    pose proof (split_on_no_sep Py.NL content) as F.
    rewrite Forall_forall in F. exact (F piece Hpiece Hnl).
Qed.

Lemma get_querries_entries_clean_witness :
  Forall (fun q => q <> [] /\ Py.strip q = q /\ ~ In Py.NL q)
         [Py.lit "alpha"; Py.lit "beta"].
Proof.
  exact (get_querries_entries_clean sample_env (Py.lit "solar") used
           [Py.lit "alpha"; Py.lit "beta"] eq_refl).
Defined.

(** X2.  When the model answers with nothing but whitespace,
    [get_querries] returns the empty list and querries.json holds the empty
    list: the list stored before is lost. *)
Theorem get_querries_blank_response (env : Env) (theme content : Py.str)
    (w : World) :
  llm env (trace w) (queries_prompt theme) 7 = Some content ->
  blank content = true ->
  value (get_querries env theme w) = Some [] /\
  queries_file (files (snd (get_querries env theme w))) = Some (QueriesJson []).
Proof.
  intros Hllm Hblank. rewrite get_querries_run, Hllm. unfold value. simpl.
  rewrite <- lines_strip, (blank_strip_nil content Hblank).
  split; reflexivity.
Qed.

Lemma get_querries_blank_response_witness :
  value (get_querries
           {| llm := fun _ _ _ => Some [32; 10; 9; 10]%N;
              find := find sample_env; fetch := fetch sample_env |}
           (Py.lit "solar") used) = Some [] /\
  queries_file
    (files (snd (get_querries
                   {| llm := fun _ _ _ => Some [32; 10; 9; 10]%N;
                      find := find sample_env; fetch := fetch sample_env |}
                   (Py.lit "solar") used))) = Some (QueriesJson []).
Proof.
  exact (get_querries_blank_response
           {| llm := fun _ _ _ => Some [32; 10; 9; 10]%N;
              find := find sample_env; fetch := fetch sample_env |}
           (Py.lit "solar") [32; 10; 9; 10]%N used eq_refl eq_refl).
Defined.

(** X3.  A call of [get_querries] makes exactly one request, at
    temperature 0.7, whether it returns or raises; it never changes
    results.json or report.json; and when it raises, querries.json too is
    as it was, so the list stored before survives a failed call. *)
Theorem get_querries_single_request (env : Env) (theme : Py.str) (w : World) :
  emitted (get_querries env theme) w = [Completion (queries_prompt theme) 7] /\
  results_file (files (snd (get_querries env theme w)))
    = results_file (files w) /\
  report_file (files (snd (get_querries env theme w)))
    = report_file (files w) /\
  (returned (get_querries env theme w) = false ->
   files (snd (get_querries env theme w)) = files w).
Proof.
  unfold emitted, returned. rewrite get_querries_run.
  destruct (llm env (trace w) (queries_prompt theme) 7) as [content|];
    cbn [fst snd files trace]; rewrite skipn_length_app;
    repeat split; try reflexivity.
  discriminate.
Qed.

Lemma get_querries_single_request_witness :
  files (snd (get_querries dead_network (Py.lit "solar") used)) = files used.
Proof.
  exact (proj2 (proj2 (proj2
           (get_querries_single_request dead_network (Py.lit "solar") used)))
           eq_refl).
Defined.

(* ------------------------------------------------------------------ *)
(** ** Further properties: search *)

Lemma fetches_of_app (t u : list event) :
  fetches_of (t ++ u) = fetches_of t ++ fetches_of u.
Proof.
  induction t as [|e t IH]; [reflexivity|].
  destruct e; simpl; now rewrite IH.
Qed.

Lemma searched_of_app (t u : list event) :
  searched_of (t ++ u) = searched_of t ++ searched_of u.
Proof.
  induction t as [|e t IH]; [reflexivity|].
  destruct e; simpl; now rewrite IH.
Qed.

Lemma search_trace (p : provider) (env : Env) (query : Py.str) (w : World) :
  trace (snd (search p env query w)) = trace (snd (gather p env query w)).
Proof.
  rewrite search_outcome.
  now destruct (gather p env query w) as [[built|e] w1].
Qed.

Lemma gather_hits (p : provider) (env : Env) (query : Py.str) (w : World)
    (hits : list SearchHit) :
  find env (trace w) p query = Some (Some hits) ->
  gather p env query w
  = search_loop p env hits []
      {| files := files w; trace := trace w ++ [ProviderSearch p query] |}.
Proof.
  intros H. unfold gather, bind, provider_results. now rewrite H.
Qed.

(** What the loop puts on the trace.  The pages fetched are the targets
    read off the provider's list; every fetch is followed either by a sleep
    of one second or by a printed line; nothing is asked of the model or of
    the provider; lines are printed only for pages that failed.  When the
    loop ends, one second was slept per record built. *)
Lemma search_loop_events (env : Env) (p : provider) (hits : list SearchHit) :
  forall (results : list ExtractionRecord) (w : World),
  exists evs,
    trace (snd (search_loop p env hits results w)) = trace w ++ evs /\
    fetches_of evs = fetch_targets p hits /\
    prompts_of evs = [] /\
    searched_of evs = [] /\
    length (fetches_of evs) = seconds_slept evs + length (printed evs) /\
    ((forall t target, exists soup, fetch env t target = inl soup) ->
     printed evs = []) /\
    forall rs, fst (search_loop p env hits results w) = Ok rs ->
      exists added, rs = results ++ added /\ seconds_slept evs = length added.
Proof.
  induction hits as [|res rest IH]; intros results w; cbn [search_loop].
  - exists []. rewrite app_nil_r. repeat split; try (now destruct p).
    intros rs [= <-]. exists []. now rewrite app_nil_r.
  - assert (T : forall target,
              fetch_targets p (res :: rest) = target :: fetch_targets p rest ->
              let r := bind (try_fetch env target res results)
                         (fun results' => search_loop p env rest results') w in
              exists evs,
                trace (snd r) = trace w ++ evs /\
                fetches_of evs = fetch_targets p (res :: rest) /\
                prompts_of evs = [] /\
                searched_of evs = [] /\
                length (fetches_of evs)
                  = seconds_slept evs + length (printed evs) /\
                ((forall t u, exists soup, fetch env t u = inl soup) ->
                 printed evs = []) /\
                forall rs, fst r = Ok rs ->
                  exists added,
                    rs = results ++ added /\ seconds_slept evs = length added).
    { intros target Htargets. cbv zeta. unfold bind, try_fetch.
      destruct (fetch env (trace w) target) as [soup|msg] eqn:Hfetch;
        cbn [fst snd files trace].
      - destruct (IH (results ++ [build_record target res soup])
                    {| files := files w;
                       trace := (trace w ++ [PageFetch target]) ++ [Sleep 1] |})
          as (evs & Ht & Hf & Hp & Hs & Hacc & Hload & Hok).
        exists ([PageFetch target; Sleep 1] ++ evs).
        split; [rewrite Ht; cbn [trace]; now rewrite <- !app_assoc|].
        cbn. rewrite Hf in Hacc. rewrite Hf, Hp, Hs, Htargets.
        repeat split; auto; try (cbn; lia).
        intros rs Hrs. destruct (Hok rs Hrs) as (added & -> & Hlen).
        exists (build_record target res soup :: added).
        rewrite <- app_assoc. split; [reflexivity|]. cbn. lia.
      - destruct (IH results
                    {| files := files w;
                       trace := (trace w ++ [PageFetch target])
                                ++ [Print (error_line target msg)] |})
          as (evs & Ht & Hf & Hp & Hs & Hacc & Hload & Hok).
        exists ([PageFetch target; Print (error_line target msg)] ++ evs).
        split; [rewrite Ht; cbn [trace]; now rewrite <- !app_assoc|].
        cbn. rewrite Hf in Hacc. rewrite Hf, Hp, Hs, Htargets.
        repeat split; auto; try (cbn; lia).
        intros Hall. destruct (Hall (trace w) target) as [soup Hsoup].
        congruence. }
    unfold loop_body. destruct p.
    + destruct (hit_url res) as [target|] eqn:Hu.
      * apply T. cbn. now rewrite Hu.
      * exists []. unfold bind, raise. cbn. rewrite Hu, app_nil_r.
        repeat split; auto. discriminate.
    + destruct (Py.truthy _) eqn:Htruthy; cbn [negb].
      * apply T. unfold fetch_targets, Serper_targets. cbn [map filter].
        now rewrite Htruthy.
      * unfold bind, ret.
        destruct (IH results w) as (evs & Ht & Hf & Hrest).
        exists evs. split; [exact Ht|]. split; [|exact Hrest].
        rewrite Hf. unfold fetch_targets, Serper_targets. cbn [map filter].
        now rewrite Htruthy.
Qed.

(** The loop raises only in the Brave copy, on an entry without url. *)
Lemma search_loop_raise (env : Env) (p : provider) (hits : list SearchHit) :
  forall (results : list ExtractionRecord) (w : World) (e : exn),
  fst (search_loop p env hits results w) = Raise e ->
  p = Brave /\ e = KeyError (Py.lit "url") /\
  Exists (fun res => hit_url res = None) hits.
Proof.
  induction hits as [|res rest IH]; intros results w e; cbn [search_loop].
  - discriminate.
  - assert (T : forall target,
              fst (bind (try_fetch env target res results)
                     (fun results' => search_loop p env rest results') w)
                = Raise e ->
              p = Brave /\ e = KeyError (Py.lit "url") /\
              Exists (fun res => hit_url res = None) (res :: rest)).
    { intros target. unfold bind, try_fetch.
      destruct (fetch env (trace w) target) as [soup|msg]; intros H;
        apply IH in H; destruct H as (Hp & He & Hex); auto. }
    unfold loop_body. destruct p.
    + destruct (hit_url res) as [target|] eqn:Hu; [apply T|].
      unfold bind, raise. cbn. intros [= <-]. auto.
    + destruct (negb _); [|apply T].
      unfold bind, ret. intros H. apply IH in H.
      destruct H as (Hp & He & Hex). auto.
Qed.

(** With Brave, an entry without url anywhere in the list makes the loop
    raise. *)
Lemma search_loop_Brave_missing_url (env : Env) (hits : list SearchHit) :
  Exists (fun res => hit_url res = None) hits ->
  forall (results : list ExtractionRecord) (w : World),
  fst (search_loop Brave env hits results w) = Raise (KeyError (Py.lit "url")).
Proof.
  induction hits as [|res rest IH]; intros Hex results w.
  - inversion Hex.
  - cbn [search_loop]. unfold loop_body, bind.
    destruct (hit_url res) as [target|] eqn:Hu; [|reflexivity].
    assert (Hrest : Exists (fun res => hit_url res = None) rest).
    { inversion Hex as [? ? H|? ? H]; subst; [congruence|exact H]. }
    unfold try_fetch.
    destruct (fetch env (trace w) target) as [soup|msg]; now apply IH.
Qed.

(** X4.  When the provider answers with the list [hits], the pages a call
    of [search] fetches are exactly the addresses read off that list, in
    the provider's order, each once: no retry, no reordering, no removal of
    duplicates.  With Serper these are the non-empty links; with Brave, the
    urls up to the first entry that has none.  At most one page is fetched
    per entry. *)
Theorem search_fetches_in_provider_order (p : provider) (env : Env)
    (query : Py.str) (w : World) (hits : list SearchHit) :
  find env (trace w) p query = Some (Some hits) ->
  fetches_of (emitted (search p env query) w) = fetch_targets p hits /\
  length (fetches_of (emitted (search p env query) w)) <= length hits.
Proof.
  intros H. unfold emitted. rewrite search_trace, (gather_hits p env query w hits H).
  destruct (search_loop_events env p hits []
              {| files := files w; trace := trace w ++ [ProviderSearch p query] |})
    as (evs & Ht & Hf & _).
  rewrite Ht. cbn [trace]. rewrite <- app_assoc, skipn_length_app. cbn.
  rewrite Hf. split; [reflexivity|].
  clear. destruct p; cbn.
  - induction hits as [|res rest IH]; cbn; [lia|].
    destruct (hit_url res); cbn; lia.
  - unfold Serper_targets.
    rewrite <- (length_map (fun res => match hit_url res with
                                        | Some u => u | None => [] end) hits).
    apply filter_length_le.
Qed.

Lemma search_fetches_in_provider_order_witness :
  fetches_of (emitted (search Serper (network hollow_hits) (Py.lit "q")) used)
    = fetch_targets Serper hollow_hits /\
  length (fetches_of
            (emitted (search Serper (network hollow_hits) (Py.lit "q")) used))
    <= length hollow_hits.
Proof.
  exact (search_fetches_in_provider_order Serper (network hollow_hits)
           (Py.lit "q") used hollow_hits eq_refl).
Defined.

(** X5.  In a call of [search] that builds the list [built]: every page
    fetched either gave a record or had one error line printed, so the
    number of fetches is the number of records plus the number of printed
    lines; the call slept one second per record built; it sent one request
    to the provider, for the query, and none to the model. *)
Theorem search_fetch_accounting (p : provider) (env : Env) (query : Py.str)
    (w : World) (built : list ExtractionRecord) :
  value (gather p env query w) = Some built ->
  length (fetches_of (emitted (search p env query) w))
    = length built + length (printed (emitted (search p env query) w)) /\
  seconds_slept (emitted (search p env query) w) = length built /\
  searched_of (emitted (search p env query) w) = [query] /\
  prompts_of (emitted (search p env query) w) = [].
Proof.
  unfold emitted, value. rewrite search_trace.
  destruct (find env (trace w) p query) as [[hits|]|] eqn:Hfind.
  - rewrite (gather_hits p env query w hits Hfind).
    destruct (search_loop_events env p hits []
                {| files := files w;
                   trace := trace w ++ [ProviderSearch p query] |})
      as (evs & Ht & Hf & Hp & Hs & Hacc & _ & Hok).
    destruct (fst (search_loop p env hits [] _)) as [rs|e] eqn:E;
      [|discriminate].
    intros [= ->]. destruct (Hok built eq_refl) as (added & Hadd & Hlen).
    simpl in Hadd. subst added.
    rewrite Ht. cbn [trace]. rewrite <- app_assoc, skipn_length_app. cbn.
    rewrite Hp, Hs. repeat split; auto. lia.
  - unfold gather, bind, provider_results. rewrite Hfind. cbn.
    intros [= <-]. rewrite skipn_length_app. repeat split; reflexivity.
  - unfold gather, bind, provider_results. rewrite Hfind. discriminate.
Qed.

Lemma search_fetch_accounting_witness :
  length (fetches_of (emitted (search Brave sample_env (Py.lit "q")) used))
    = 2 + length (printed (emitted (search Brave sample_env (Py.lit "q")) used)) /\
  seconds_slept (emitted (search Brave sample_env (Py.lit "q")) used) = 2 /\
  searched_of (emitted (search Brave sample_env (Py.lit "q")) used)
    = [Py.lit "q"] /\
  prompts_of (emitted (search Brave sample_env (Py.lit "q")) used) = [].
Proof.
  exact (search_fetch_accounting Brave sample_env (Py.lit "q") used
           [ {| url := Py.lit "http://b"; title := Some (Py.lit "Doc B");
                text := Py.lit "hello world" |};
             {| url := Py.lit "http://c"; title := Some []; text := [] |} ]
           eq_refl).
Defined.

(** X6.  [search] raises in two cases only, and in both the three files
    are left as they were: the request to the provider failed; or, in the
    Brave copy alone, the provider's list has an entry without url.  The
    Serper copies raise in the first case only. *)
Theorem search_raises_only (p : provider) (env : Env) (query : Py.str)
    (w : World) (e : exn) :
  fst (search p env query w) = Raise e ->
  files (snd (search p env query w)) = files w /\
  ((e = RequestError /\ find env (trace w) p query = None) \/
   (p = Brave /\ e = KeyError (Py.lit "url") /\
    exists hits,
      find env (trace w) p query = Some (Some hits) /\
      Exists (fun res => hit_url res = None) hits)).
Proof.
  rewrite search_outcome. pose proof (gather_files env p query w) as Hf.
  destruct (gather p env query w) as [[built|e'] w1] eqn:G;
    cbn [fst snd] in *; [discriminate|].
  intros [= ->]. split; [exact Hf|].
  destruct (find env (trace w) p query) as [[hits|]|] eqn:Hfind.
  - right. rewrite (gather_hits p env query w hits Hfind) in G.
    destruct (search_loop_raise env p hits []
                {| files := files w;
                   trace := trace w ++ [ProviderSearch p query] |} e)
      as (Hp & He & Hex).
    { now rewrite G. }
    repeat split; auto. now exists hits.
  - unfold gather, bind, provider_results in G. rewrite Hfind in G.
    discriminate.
  - left. unfold gather, bind, provider_results in G. rewrite Hfind in G.
    injection G as <- _. now split.
Qed.

Lemma search_raises_only_witness :
  files (snd (search Brave (network gappy_hits) (Py.lit "q") used))
    = files used /\
  ((KeyError (Py.lit "url") = RequestError /\
    find (network gappy_hits) (trace used) Brave (Py.lit "q") = None) \/
   (Brave = Brave /\ KeyError (Py.lit "url") = KeyError (Py.lit "url") /\
    exists hits,
      find (network gappy_hits) (trace used) Brave (Py.lit "q")
        = Some (Some hits) /\
      Exists (fun res => hit_url res = None) hits)).
Proof.
  exact (search_raises_only Brave (network gappy_hits) (Py.lit "q") used
           (KeyError (Py.lit "url")) eq_refl).
Defined.

(** X7.  In the Brave copy, one entry without url anywhere in the
    provider's list makes the whole call raise KeyError and store nothing:
    the records built from the entries before it are dropped with it. *)
Theorem search_Brave_missing_url_raises (env : Env) (query : Py.str)
    (w : World) (hits : list SearchHit) :
  find env (trace w) Brave query = Some (Some hits) ->
  Exists (fun res => hit_url res = None) hits ->
  fst (search Brave env query w) = Raise (KeyError (Py.lit "url")) /\
  files (snd (search Brave env query w)) = files w.
Proof.
  intros Hfind Hex. rewrite search_outcome.
  pose proof (gather_files env Brave query w) as Hf.
  rewrite (gather_hits Brave env query w hits Hfind) in *.
  pose proof (search_loop_Brave_missing_url env hits Hex []
                {| files := files w;
                   trace := trace w ++ [ProviderSearch Brave query] |}) as R.
  destruct (search_loop Brave env hits [] _) as [[built|e] w1];
    cbn [fst snd] in *; [discriminate|].
  injection R as ->. now split.
Qed.

Lemma search_Brave_missing_url_raises_witness :
  fst (search Brave (network (sample_hits ++ gappy_hits)) (Py.lit "q") used)
    = Raise (KeyError (Py.lit "url")) /\
  files (snd (search Brave (network (sample_hits ++ gappy_hits))
                (Py.lit "q") used)) = files used.
Proof.
  apply (search_Brave_missing_url_raises (network (sample_hits ++ gappy_hits))
           (Py.lit "q") used (sample_hits ++ gappy_hits) eq_refl).
  apply Exists_exists. exists (hit None (Some (Py.lit "no address"))).
  split; [|reflexivity]. simpl. tauto.
Defined.

(* ------------------------------------------------------------------ *)
(** ** Further properties: what search stores *)

Section Normalisation.

Import Py.

Lemma nonspace_not_32 (c : char) : isspace c = false -> (c =? 32)%N = false.
Proof.
  intros H. destruct (c =? 32)%N eqn:E; [|reflexivity].
  apply N.eqb_eq in E. subst c. discriminate.
Qed.

(** A run of non-whitespace characters leaves the reader after a
    non-space. *)
Lemma single_spaced_word (b : bool) (c : char) (word rest : str) :
  forallb (fun a => negb (isspace a)) (c :: word) = true ->
  single_spaced b ((c :: word) ++ rest) = single_spaced false rest.
Proof.
  revert b c. induction word as [|d word IH]; intros b c H;
    simpl in H; apply andb_true_iff in H; destruct H as [Hc Hw];
    apply negb_true_iff in Hc; cbn [app single_spaced];
    rewrite (nonspace_not_32 c Hc), Hc.
  - reflexivity.
  - cbn [negb andb]. apply (IH false d). exact Hw.
Qed.

(** The pieces of [s.split()] are non-empty and free of whitespace. *)
Lemma split_ws_from_words (s : str) :
  forall cur,
  forallb (fun a => negb (isspace a)) cur = true ->
  Forall (fun word => word <> [] /\
                      forallb (fun a => negb (isspace a)) word = true)
         (split_ws_from cur s).
Proof.
  assert (R : forall cur, cur <> [] ->
            forallb (fun a => negb (isspace a)) cur = true ->
            rev cur <> [] /\
            forallb (fun a => negb (isspace a)) (rev cur) = true).
  { intros cur Hne Hall. split.
    - intros E. apply Hne. rewrite <- (rev_involutive cur), E. reflexivity.
    - apply forallb_forall. intros a Ha. apply In_rev in Ha.
      rewrite forallb_forall in Hall. now apply Hall. }
  induction s as [|c s IH]; intros cur Hcur; cbn [split_ws_from].
  - destruct cur as [|a cur]; constructor; [|constructor].
    apply R; [discriminate|exact Hcur].
  - destruct (isspace c) eqn:Hc.
    + destruct cur as [|a cur]; [now apply IH|].
      constructor; [apply R; [discriminate|exact Hcur]|now apply IH].
    + apply IH. simpl. now rewrite Hc.
Qed.

Lemma join_words_normalized (words : list str) :
  Forall (fun word => word <> [] /\
                      forallb (fun a => negb (isspace a)) word = true) words ->
  normalized (join (lit " ") words) = true.
Proof.
  unfold normalized. change (lit " ") with [32%N].
  induction 1 as [|word rest [Hne Hall] Hrest IH]; [reflexivity|].
  destruct word as [|c word]; [contradiction|].
  destruct rest as [|next rest'].
  - cbn [join]. rewrite <- (app_nil_r (c :: word)).
    now rewrite (single_spaced_word true c word [] Hall).
  - change (join [32%N] ((c :: word) :: next :: rest'))
      with ((c :: word) ++ [32%N] ++ join [32%N] (next :: rest')).
    rewrite (single_spaced_word true c word _ Hall).
    cbn [app single_spaced N.eqb Pos.eqb negb andb]. exact IH.
Qed.

Lemma single_spaced_firstn (n : nat) :
  forall (b : bool) (s : str),
  single_spaced b s = true -> single_spaced b (firstn n s) = true.
Proof.
  induction n as [|n IH]; intros b s H; [reflexivity|].
  destruct s as [|c s]; [reflexivity|].
  cbn [firstn single_spaced] in *.
  destruct (c =? 32)%N; apply andb_true_iff in H; destruct H as [H1 H2];
    rewrite H1; now apply IH.
Qed.

(** The text of a record is normalised, cut or not. *)
Lemma build_record_normalized (target : str) (res : SearchHit) (soup : Soup) :
  normalized (text (build_record target res soup)) = true.
Proof.
  unfold build_record. cbn [text]. unfold prefix, normalized.
  apply single_spaced_firstn. unfold extract_text.
  destruct (soup_body soup) as [body|]; [|reflexivity].
  apply join_words_normalized. now apply split_ws_from_words.
Qed.

End Normalisation.

Lemma build_record_text_bounded (target : Py.str) (res : SearchHit)
    (soup : Soup) :
  text_bounded (build_record target res soup) = true.
Proof.
  unfold text_bounded, build_record, Py.prefix. cbn [text].
  apply Nat.leb_le. rewrite length_firstn. apply Nat.le_min_l.
Qed.

(** Every record that the loop hands over was made by [build_record]. *)
Lemma gathered_built (env : Env) (p : provider) (query : Py.str) (w : World)
    (rs : list ExtractionRecord) :
  fst (gather p env query w) = Ok rs ->
  Forall (fun r => exists res soup, r = build_record (url r) res soup) rs.
Proof.
  unfold gather, bind, provider_results.
  destruct (find env (trace w) p query) as [[hits|]|]; cbn [fst snd].
  - intros E.
    destruct (proj2 (search_loop_built env p hits [] _) rs E)
      as (added & -> & Hall).
    simpl. eapply Forall_impl; [|exact Hall].
    intros r (res & soup & t & _ & _ & _ & Hr). now exists res, soup.
  - intros [= <-]. constructor.
  - discriminate.
Qed.

(** A property that every built record has, and that the corpus has
    before a call, the corpus has after it. *)
Lemma search_keeps (P : ExtractionRecord -> Prop) (p : provider) (env : Env)
    (query : Py.str) (w : World) :
  (forall target res soup, P (build_record target res soup)) ->
  Forall P (load_corpus (files w)) ->
  Forall P (load_corpus (files (snd (search p env query w)))).
Proof.
  intros Hbuilt Hinv. rewrite search_outcome.
  pose proof (gather_files env p query w) as Hf.
  pose proof (gathered_built env p query w) as Hg.
  destruct (gather p env query w) as [[built|e] w1]; cbn [fst snd files] in *.
  - assert (L : forall fs rs, load_corpus (set_results fs (ResultsJson rs)) = rs)
      by reflexivity.
    rewrite L. apply Forall_app. split; [exact Hinv|].
    eapply Forall_impl; [|exact (Hg built eq_refl)].
    intros r (res & soup & ->). apply Hbuilt.
  - now rewrite Hf.
Qed.

(** X8.  In every copy, [search] keeps the bound on texts: if no record
    of the corpus has a text longer than 100000 characters before a call,
    none has after it, whatever the pages held. *)
Theorem search_keeps_text_bounded (p : provider) (env : Env) (query : Py.str)
    (w : World) :
  Forall (fun r => text_bounded r = true) (load_corpus (files w)) ->
  Forall (fun r => text_bounded r = true)
         (load_corpus (files (snd (search p env query w)))).
Proof.
  apply (search_keeps (fun r => text_bounded r = true)).
  apply build_record_text_bounded.
Qed.

Lemma search_keeps_text_bounded_witness :
  Forall (fun r => text_bounded r = true)
         (load_corpus (files (snd (search Brave sample_env (Py.lit "q") used)))).
Proof.
  apply (search_keeps_text_bounded Brave sample_env (Py.lit "q") used).
  repeat constructor.
Defined.

(** X9.  In every copy, [search] stores whitespace-normalised texts: if
    every text of the corpus is free of whitespace other than single
    spaces between words, with none at the start, before a call, so it is
    after the call.  (A text cut at 100000 characters may end with a
    space.) *)
Theorem search_keeps_text_normalized (p : provider) (env : Env)
    (query : Py.str) (w : World) :
  Forall (fun r => normalized (text r) = true) (load_corpus (files w)) ->
  Forall (fun r => normalized (text r) = true)
         (load_corpus (files (snd (search p env query w)))).
Proof.
  apply (search_keeps (fun r => normalized (text r) = true)).
  apply build_record_normalized.
Qed.

Lemma search_keeps_text_normalized_witness :
  Forall (fun r => normalized (text r) = true)
         (load_corpus
            (files (snd (search Serper (open_network sample_hits)
                           (Py.lit "q") used)))).
Proof.
  apply (search_keeps_text_normalized Serper (open_network sample_hits)
           (Py.lit "q") used).
  repeat constructor.
Defined.

Example normalized_sample :
  text (build_record (Py.lit "u") (hit None None)
          (page None (Some ([9; 32] ++ Py.lit "a" ++ [10; 10; 13]
                            ++ Py.lit "b  c" ++ [32])%N)))
    = Py.lit "a b c" /\
  normalized (Py.lit "a b c") = true /\
  normalized (Py.lit " a") = false /\
  normalized (Py.lit "a  b") = false /\
  normalized ([97; 9; 98]%N) = false.
Proof. repeat split; reflexivity. Qed.

Lemma gathered_Serper_urls (env : Env) (query : Py.str) (w : World)
    (rs : list ExtractionRecord) :
  fst (gather Serper env query w) = Ok rs ->
  Forall (fun r => url_nonempty r = true) rs.
Proof.
  unfold gather, bind, provider_results.
  destruct (find env (trace w) Serper query) as [[hits|]|]; cbn [fst snd].
  - intros E. eapply (search_loop_Serper_urls env hits [] rs); [exact E|].
    constructor.
  - intros [= <-]. constructor.
  - discriminate.
Qed.

(** X10.  The Serper copies never store a record without address: if
    every record of the corpus has a non-empty url before a call of
    [search], so it is after the call, whatever the provider returned. *)
Theorem search_Serper_keeps_urls (env : Env) (query : Py.str) (w : World) :
  Forall (fun r => url_nonempty r = true) (load_corpus (files w)) ->
  Forall (fun r => url_nonempty r = true)
         (load_corpus (files (snd (search Serper env query w)))).
Proof.
  intros Hinv. rewrite search_outcome.
  pose proof (gather_files env Serper query w) as Hf.
  pose proof (gathered_Serper_urls env query w) as Hg.
  destruct (gather Serper env query w) as [[built|e] w1];
    cbn [fst snd files] in *.
  - assert (L : forall fs rs, load_corpus (set_results fs (ResultsJson rs)) = rs)
      by reflexivity.
    rewrite L. apply Forall_app. split; [exact Hinv|]. now apply Hg.
  - now rewrite Hf.
Qed.

Lemma search_Serper_keeps_urls_witness :
  Forall (fun r => url_nonempty r = true)
         (load_corpus
            (files (snd (search Serper (open_network hollow_hits)
                           (Py.lit "q") used)))).
Proof.
  apply (search_Serper_keeps_urls (open_network hollow_hits) (Py.lit "q") used).
  repeat constructor.
Defined.

(** The events of one call of [search]: the request to the provider, then
    those of the loop. *)
Lemma search_events (p : provider) (env : Env) (query : Py.str) (w : World) :
  exists evs,
    trace (snd (search p env query w))
      = trace w ++ ProviderSearch p query :: evs /\
    prompts_of evs = [] /\
    searched_of evs = [] /\
    length (fetches_of evs) = seconds_slept evs + length (printed evs) /\
    ((forall t target, exists soup, fetch env t target = inl soup) ->
     printed evs = []).
Proof.
  rewrite search_trace.
  destruct (find env (trace w) p query) as [[hits|]|] eqn:Hfind.
  - rewrite (gather_hits p env query w hits Hfind).
    destruct (search_loop_events env p hits []
                {| files := files w;
                   trace := trace w ++ [ProviderSearch p query] |})
      as (evs & Ht & _ & Hp & Hs & Hacc & Hload & _).
    exists evs. rewrite Ht. cbn [trace]. rewrite <- app_assoc.
    repeat split; auto.
  - exists []. unfold gather, bind, provider_results. rewrite Hfind.
    repeat split; reflexivity.
  - exists []. unfold gather, bind, provider_results. rewrite Hfind.
    repeat split; reflexivity.
Qed.

(** X11.  When every page loads, a call of [search] prints nothing,
    sleeps one second after each fetch (as many seconds as pages fetched),
    and its trace has a sleep between any two fetches. *)
Theorem search_sleeps_when_pages_load (p : provider) (env : Env)
    (query : Py.str) (w : World) :
  (forall t target, exists soup, fetch env t target = inl soup) ->
  polite (emitted (search p env query) w) = true /\
  printed (emitted (search p env query) w) = [] /\
  seconds_slept (emitted (search p env query) w)
    = length (fetches_of (emitted (search p env query) w)).
Proof.
  intros Hload. split; [now apply search_polite_when_pages_load|].
  destruct (search_events p env query w) as (evs & Ht & _ & _ & Hacc & Hpr).
  unfold emitted. rewrite Ht, skipn_length_app. cbn.
  specialize (Hpr Hload). rewrite Hpr in *. cbn in Hacc.
  split; [reflexivity|lia].
Qed.

Lemma search_sleeps_when_pages_load_witness :
  polite (emitted (search Brave (open_network sample_hits) (Py.lit "q")) used)
    = true /\
  printed (emitted (search Brave (open_network sample_hits) (Py.lit "q")) used)
    = [] /\
  seconds_slept
    (emitted (search Brave (open_network sample_hits) (Py.lit "q")) used)
    = length (fetches_of
                (emitted (search Brave (open_network sample_hits) (Py.lit "q"))
                   used)).
Proof.
  apply (search_sleeps_when_pages_load Brave (open_network sample_hits)
           (Py.lit "q") used).
  intros t target. simpl. eexists. reflexivity.
Defined.

(* ------------------------------------------------------------------ *)
(** ** Further properties: the loop over the stored queries *)

(** What the loop over the queries does to the files and to the trace:
    the corpus only grows at its end, by records within the text bound;
    the two other files are untouched; the provider is asked for the
    queries in order, each once, up to the call that raises if one does. *)
Lemma search_each_run (p : provider) (env : Env) (queries : list Py.str) :
  forall w : World,
  exists added evs k,
    load_corpus (files (snd (search_each p env queries w)))
      = load_corpus (files w) ++ added /\
    Forall (fun r => text_bounded r = true) added /\
    queries_file (files (snd (search_each p env queries w)))
      = queries_file (files w) /\
    report_file (files (snd (search_each p env queries w)))
      = report_file (files w) /\
    trace (snd (search_each p env queries w)) = trace w ++ evs /\
    searched_of evs = firstn k queries /\
    prompts_of evs = [] /\
    k <= length queries /\
    (returned (search_each p env queries w) = true -> k = length queries) /\
    (returned (search_each p env queries w) = false -> 0 < k).
Proof.
  induction queries as [|query rest IH]; intros w; cbn [search_each].
  - exists [], [], 0. rewrite !app_nil_r.
    repeat split; auto; try constructor; discriminate.
  - unfold bind.
    destruct (search_events p env query w) as (evs1 & Ht1 & Hp1 & Hs1 & _).
    pose proof (search_outcome p env query w) as Ho.
    pose proof (gather_files env p query w) as Hgf.
    pose proof (gathered_built env p query w) as Hgb.
    destruct (search p env query w) as [[[]|e] w1] eqn:Es;
      cbn [fst snd] in *.
    + destruct (gather p env query w) as [[built|e] g1];
        [|discriminate]. injection Ho as Hw1. subst w1.
      destruct (IH {| files := set_results (files w)
                                 (ResultsJson (load_corpus (files w) ++ built));
                      trace := trace g1 |})
        as (added & evs & k & Hl & Hb & Hq & Hr & Ht & Hs
            & Hp & Hk & Hret & Hraise).
      cbn [files trace] in *. rewrite Ht1 in Hl, Hq, Hr, Ht, Hret, Hraise |- *.
      exists (built ++ added), (ProviderSearch p query :: evs1 ++ evs), (S k).
      rewrite Hl, Hq, Hr, Ht.
      assert (L : forall fs rs, load_corpus (set_results fs (ResultsJson rs)) = rs)
        by reflexivity.
      rewrite L. rewrite <- !app_assoc. cbn.
      rewrite searched_of_app, prompts_of_app, Hs1, Hp1, Hs, Hp. cbn.
      repeat split; auto; try lia;
        try (intros H; now rewrite (Hret H)).
      apply Forall_app. split; [|exact Hb].
      eapply Forall_impl; [|exact (Hgb built eq_refl)].
      intros r (res & soup & ->). apply build_record_text_bounded.
    + destruct (gather p env query w) as [[built|e'] g1];
        [discriminate|]. injection Ho as _ Hw1. subst g1.
      cbn [fst snd] in Hgf.
      exists [], (ProviderSearch p query :: evs1), 1.
      rewrite Ht1, app_nil_r, Hgf. cbn. rewrite Hs1, Hp1.
      repeat split; auto; try lia; discriminate.
Qed.

(** X12.  Running [search] on each stored query, as the interface does,
    is append-only on the corpus: whatever the network does and whether or
    not a call raises on the way, the corpus afterwards is the corpus
    before followed by new records, each with a text of at most 100000
    characters; no earlier record is changed, moved or dropped; and
    querries.json and report.json are untouched. *)
Theorem search_each_append_only (p : provider) (env : Env)
    (queries : list Py.str) (w : World) :
  exists added,
    load_corpus (files (snd (search_each p env queries w)))
      = load_corpus (files w) ++ added /\
    Forall (fun r => text_bounded r = true) added /\
    queries_file (files (snd (search_each p env queries w)))
      = queries_file (files w) /\
    report_file (files (snd (search_each p env queries w)))
      = report_file (files w).
Proof.
  destruct (search_each_run p env queries w)
    as (added & evs & k & Hl & Hb & Hq & Hr & _).
  exists added. auto.
Qed.

(** X13.  The loop over the stored queries asks the provider for the
    queries in their stored order, each at most once, and never asks the
    model: the queries searched are the first [k] of the list, with [k] the
    whole length when the loop ends normally, and at least one when a call
    raised (the failing query was sent; those after it were not). *)
Theorem search_each_in_order (p : provider) (env : Env)
    (queries : list Py.str) (w : World) :
  exists k,
    searched_of (emitted (search_each p env queries) w) = firstn k queries /\
    prompts_of (emitted (search_each p env queries) w) = [] /\
    k <= length queries /\
    (returned (search_each p env queries w) = true -> k = length queries) /\
    (returned (search_each p env queries w) = false -> 0 < k).
Proof.
  destruct (search_each_run p env queries w)
    as (added & evs & k & _ & _ & _ & _ & Ht & Hs & Hp & Hk & Hret & Hraise).
  exists k. unfold emitted. rewrite Ht, skipn_length_app. auto.
Qed.

Example search_each_sample :
  searched_of (emitted (search_each Serper sample_env
                          [Py.lit "q1"; Py.lit "q2"]) used)
    = [Py.lit "q1"; Py.lit "q2"] /\
  length (load_corpus
            (files (snd (search_each Serper sample_env
                           [Py.lit "q1"; Py.lit "q2"] used)))) = 6 /\
  searched_of (emitted (search_each Brave (network gappy_hits)
                          [Py.lit "q1"; Py.lit "q2"]) used)
    = [Py.lit "q1"] /\
  load_corpus (files (snd (search_each Brave (network gappy_hits)
                             [Py.lit "q1"; Py.lit "q2"] used)))
    = old_records.
Proof. repeat split; reflexivity. Qed.

(* ------------------------------------------------------------------ *)
(** ** Further properties: reporting *)

(** The loop over the chunks, whatever its outcome: files untouched, only
    requests to the model on the trace, and no exception other than a
    failed request. *)
Lemma summarize_all_Brave_any (env : Env) (chunks : list Py.str) :
  forall (summaries : list Py.str) (w : World),
  files (snd (summarize_all Brave env chunks summaries w)) = files w /\
  (exists evs,
     trace (snd (summarize_all Brave env chunks summaries w)) = trace w ++ evs /\
     fetches_of evs = [] /\ searched_of evs = []) /\
  forall e, fst (summarize_all Brave env chunks summaries w) = Raise e ->
    e = RequestError.
Proof.
  induction chunks as [|c rest IH]; intros summaries w; cbn [summarize_all].
  - split; [reflexivity|]. split; [|discriminate].
    exists []. now rewrite app_nil_r.
  - unfold bind. rewrite summary_Brave.
    destruct (llm env (trace w) (summary_prompt c) 3) as [content|].
    + destruct (IH (summaries ++ [Py.strip content])
                  {| files := files w;
                     trace := trace w ++ [Completion (summary_prompt c) 3] |})
        as (Hf & (evs & Ht & Hfe & Hse) & He).
      split; [exact Hf|]. split; [|exact He].
      exists (Completion (summary_prompt c) 3 :: evs).
      rewrite Ht. cbn [trace]. rewrite <- app_assoc. now repeat split.
    + split; [reflexivity|]. split.
      * exists [Completion (summary_prompt c) 3]. now repeat split.
      * now intros e [= <-].
Qed.

(** A run of the Brave copy's [report] on a corpus file holding a list,
    whatever its outcome. *)
Lemma report_with_Brave_outcome (size : nat) (env : Env) (w : World)
    (rs : list ExtractionRecord) :
  results_file (files w) = Some (ResultsJson rs) ->
  match fst (report_with size Brave env w) with
  | Ok final =>
      files (snd (report_with size Brave env w)) = set_report (files w) final /\
      Py.strip final = final
  | Raise e =>
      files (snd (report_with size Brave env w)) = files w /\ e = RequestError
  end /\
  exists evs,
    trace (snd (report_with size Brave env w)) = trace w ++ evs /\
    fetches_of evs = [] /\ searched_of evs = [].
Proof.
  intros Hfile. unfold report_with, bind, read_files. cbn [fst snd].
  rewrite Hfile.
  destruct (size <? length (full_text rs)).
  - destruct (summarize_all_Brave_any env (chunks_of size (full_text rs)) [] w)
      as (Hf & (evs & Ht & Hfe & Hse) & He).
    destruct (summarize_all Brave env _ [] w) as [[summaries|e] w1];
      cbn [fst snd] in *.
    + rewrite summary_Brave.
      destruct (llm env (trace w1) _ 3) as [content|]; cbn.
      * rewrite Hf, Ht. split; [split; [reflexivity|apply strip_idem]|].
        eexists. rewrite <- app_assoc. split; [reflexivity|].
        rewrite fetches_of_app, searched_of_app, Hfe, Hse. now split.
      * rewrite Hf, Ht. split; [now split|].
        eexists. rewrite <- app_assoc. split; [reflexivity|].
        rewrite fetches_of_app, searched_of_app, Hfe, Hse. now split.
    + split; [split; [exact Hf|now apply He]|].
      exists evs. now repeat split.
  - rewrite summary_Brave.
    destruct (llm env (trace w) _ 3) as [content|]; cbn.
    + split; [split; [reflexivity|apply strip_idem]|].
      eexists. split; [reflexivity|]. now split.
    + split; [now split|].
      eexists. split; [reflexivity|]. now split.
Qed.

(** What [report] leaves in the files.  With a corpus file holding a list,
    the report file receives the returned text, or the files are as they
    were when the call raises; without one, the call is the fixed sentence
    and nothing else. *)
Lemma report_files (p : provider) (env : Env) (w : World) :
  match results_file (files w) with
  | Some (ResultsJson rs) =>
      match fst (report p env w) with
      | Ok final => files (snd (report p env w)) = set_report (files w) final
      | Raise _ => files (snd (report p env w)) = files w
      end
  | _ => report p env w = (Ok NO_RESULTS, w)
  end.
Proof.
  destruct (results_file (files w)) as [[|rs]|] eqn:Hfile.
  - apply report_without_storage. now right.
  - destruct p.
    + destruct (report_with_Brave_outcome CHUNK_SIZE env w rs Hfile)
        as (Hout & _).
      fold (report Brave env w) in Hout.
      destruct (fst (report Brave env w)); apply Hout.
    + now rewrite (report_Serper_raises env w rs Hfile).
  - apply report_without_storage. now left.
Qed.

(** [report] never touches the corpus file. *)
Lemma report_keeps_corpus (p : provider) (env : Env) (w : World) :
  results_file (files (snd (report p env w))) = results_file (files w).
Proof.
  pose proof (report_files p env w) as H.
  destruct (results_file (files w)) as [[|rs]|] eqn:Hfile;
    try (rewrite H; exact Hfile).
  destruct (fst (report p env w)); rewrite H; [|exact Hfile].
  rewrite <- Hfile. reflexivity.
Qed.



(* ------------------------------------------------------------------ *)
(** ** The record invariant over a session *)

(** One turn of the loop that ends without an exception appends nothing,
    or the record built from the entry at hand and the page at its
    address; with Serper that address is not empty. *)
Lemma loop_body_turn (p : provider) (env : Env) (res : SearchHit)
    (results rs : list ExtractionRecord) (w : World) :
  fst (loop_body p env res results w) = Ok rs ->
  rs = results \/
  exists target soup,
    hit_url res = Some target /\
    (p = Serper -> target <> []) /\
    fetch env (trace w) target = inl soup /\
    rs = results ++ [build_record target res soup].
Proof.
  intros H. unfold loop_body in H.
  assert (T : forall target,
             hit_url res = Some target ->
             (p = Serper -> target <> []) ->
             fst (try_fetch env target res results w) = Ok rs ->
             rs = results \/
             exists target soup,
               hit_url res = Some target /\
               (p = Serper -> target <> []) /\
               fetch env (trace w) target = inl soup /\
               rs = results ++ [build_record target res soup]).
  { intros target Hu Hne E. unfold try_fetch in E.
    destruct (fetch env (trace w) target) as [soup|msg] eqn:F;
      cbn [fst] in E; injection E as <-.
    - right. exists target, soup. now repeat split.
    - now left. }
  destruct p.
  - destruct (hit_url res) as [target|] eqn:Hu.
    + apply (T target eq_refl); [discriminate|exact H].
    + discriminate H.
  - destruct (hit_url res) as [[|c target]|] eqn:Hu.
    + left. injection H as <-. reflexivity.
    + apply (T (c :: target) eq_refl); [discriminate|exact H].
    + left. injection H as <-. reflexivity.
Qed.

(** The loop only appends records with a non-empty address: with Serper
    because of its test, with Brave because the empty address is never
    delivered. *)
Lemma search_loop_urls (p : provider) (env : Env) (hits : list SearchHit) :
  p = Serper \/ refuses_empty_address env ->
  forall (results rs : list ExtractionRecord) (w : World),
  fst (search_loop p env hits results w) = Ok rs ->
  Forall (fun r => url r <> []) results ->
  Forall (fun r => url r <> []) rs.
Proof.
  intros Hguard.
  induction hits as [|res rest IH]; intros results rs w; cbn [search_loop].
  - now intros [= <-].
  - unfold bind.
    destruct (loop_body p env res results w) as [[rs1|e] w1] eqn:B;
      cbn [fst snd]; [|discriminate].
    intros H Hres. apply (IH _ _ _ H).
    destruct (loop_body_turn p env res results rs1 w (f_equal fst B))
      as [->|(target & soup & _ & Hne & Hfetch & ->)]; [exact Hres|].
    apply Forall_app. split; [exact Hres|].
    constructor; [|constructor]. cbn [url build_record].
    intros ->. destruct Hguard as [->|Hrefuse].
    + now apply Hne.
    + destruct (Hrefuse (trace w)) as (msg & Hmsg).
      rewrite Hmsg in Hfetch. discriminate.
Qed.

(** Every record [search] gathers satisfies the record invariant. *)
Lemma gathered_invariant (p : provider) (env : Env) (query : Py.str)
    (w : World) (built : list ExtractionRecord) :
  p = Serper \/ refuses_empty_address env ->
  value (gather p env query w) = Some built ->
  Forall record_invariant built.
Proof.
  intros Hguard H.
  pose proof (gathered_text_bounded env p query w built H) as Htext.
  assert (Hurl : Forall (fun r => url r <> []) built).
  { revert H. unfold gather, bind, value, provider_results.
    destruct (find env (trace w) p query) as [[hits|]|]; cbn [fst snd].
    - destruct (search_loop p env hits [] _) as [[rs'|e] w1] eqn:E;
        cbn [fst]; [|discriminate].
      intros [= <-].
      apply (search_loop_urls p env hits Hguard [] rs' _ (f_equal fst E)).
      constructor.
    - intros [= <-]. constructor.
    - discriminate. }
  rewrite Forall_forall in *. intros r Hr. split; [now apply Hurl|].
  apply Nat.leb_le. now apply Htext.
Qed.

(** [search] keeps the record invariant on the stored corpus. *)
Lemma search_keeps_invariant (p : provider) (env : Env) (query : Py.str)
    (w : World) :
  p = Serper \/ refuses_empty_address env ->
  Forall record_invariant (load_corpus (files w)) ->
  Forall record_invariant (load_corpus (files (snd (search p env query w)))).
Proof.
  intros Hguard Hinv. rewrite search_outcome.
  pose proof (gathered_invariant p env query w) as Hg.
  pose proof (gather_files env p query w) as Hf.
  unfold value in Hg.
  destruct (gather p env query w) as [[built|e] w1];
    cbn [fst snd files] in *.
  - assert (L : forall fs rs, load_corpus (set_results fs (ResultsJson rs)) = rs)
      by reflexivity.
    rewrite L. apply Forall_app. split; [exact Hinv|]. now apply Hg.
  - now rewrite Hf.
Qed.

(** The other calls leave the stored corpus as it is. *)
Lemma perform_keeps_corpus (p : provider) (env : Env) (o : operation)
    (w : World) :
  (forall query, o <> CallSearch query) ->
  load_corpus (files (perform p env o w)) = load_corpus (files w).
Proof.
  intros Ho. destruct o as [|theme|query|]; cbn [perform].
  - unfold load_corpus, init. cbn [files results_file].
    now destruct (results_file (files w)).
  - rewrite get_querries_run.
    now destruct (llm env (trace w) (queries_prompt theme) 7).
  - now destruct (Ho query).
  - unfold load_corpus. now rewrite report_keeps_corpus.
Qed.

(** With the Serper copies no page is asked for at the empty address. *)
Lemma search_Serper_fetches_nonempty (env : Env) (query : Py.str)
    (w : World) :
  Forall (fun target => target <> [])
         (fetches_of (emitted (search Serper env query) w)).
Proof.
  unfold emitted. rewrite search_trace.
  unfold gather, bind, provider_results.
  destruct (find env (trace w) Serper query) as [[hits|]|]; cbn [fst snd].
  - destruct (search_loop_events env Serper hits []
                {| files := files w;
                   trace := trace w ++ [ProviderSearch Serper query] |})
      as (evs & Ht & Hf & _).
    rewrite Ht. cbn [trace]. rewrite <- app_assoc, skipn_length_app.
    cbn [app fetches_of]. rewrite Hf.
    unfold fetch_targets, Serper_targets. apply Forall_forall.
    intros target Hin. apply filter_In in Hin. destruct Hin as [_ Htruthy].
    intros ->. discriminate.
  - cbn [search_loop ret fst snd trace]. rewrite skipn_length_app.
    constructor.
  - cbn [trace]. rewrite skipn_length_app. constructor.
Qed.

(** C6.  The record invariant, a non-empty address and a text of at most
    100000 characters, holds for every record after every sequence of
    calls.  A session is any sequence of constructions of the instance and
    calls of [get_querries], [search] and [report], each of which may
    return or raise.  With the Serper copies, and with the Brave copy on a
    network where the empty address is refused: if the stored corpus
    satisfies the invariant before the session, it does after it; every
    record a call of [search] gathers satisfies it; and the text of a
    record is the page's text cut at 100000 characters, so the bound holds
    however long the page was.  The Serper copies skip entries without an
    address before fetching: they never ask for the empty address. *)
Theorem corpus_invariant_after_calls (p : provider) (env : Env)
    (ops : list operation) (w : World) :
  p = Serper \/ refuses_empty_address env ->
  Forall record_invariant (load_corpus (files w)) ->
  Forall record_invariant (load_corpus (files (perform_all p env ops w))) /\
  (forall query w0 built,
      value (gather p env query w0) = Some built ->
      Forall record_invariant built /\
      load_corpus (files (snd (search p env query w0)))
      = load_corpus (files w0) ++ built) /\
  (forall target res soup,
      length (text (build_record target res soup))
      = Nat.min TEXT_LIMIT (length (extract_text soup))) /\
  (forall query w0,
      Forall (fun target => target <> [])
             (fetches_of (emitted (search Serper env query) w0))).
Proof.
  intros Hguard Hinv. split; [|split; [|split]].
  - revert w Hinv. unfold perform_all.
    induction ops as [|o rest IH]; intros w Hinv; cbn [fold_left];
      [exact Hinv|].
    apply IH. destruct o as [|theme|query|].
    + now rewrite perform_keeps_corpus by discriminate.
    + now rewrite perform_keeps_corpus by discriminate.
    + cbn [perform]. now apply search_keeps_invariant.
    + now rewrite perform_keeps_corpus by discriminate.
  - intros query w0 built H. split.
    + now apply (gathered_invariant p env query w0).
    + rewrite search_outcome. unfold value in H.
      destruct (gather p env query w0) as [[built'|e] w1];
        cbn [fst] in H; [|discriminate].
      injection H as ->. reflexivity.
  - intros target res soup. unfold build_record, Py.prefix. cbn [text].
    apply length_firstn.
  - intros query w0. apply search_Serper_fetches_nonempty.
Qed.

Lemma corpus_invariant_after_calls_witness :
  Forall record_invariant
    (load_corpus
       (files (perform_all Brave (network hollow_hits)
                 [Construct; CallGetQuerries (Py.lit "theme");
                  CallSearch (Py.lit "q"); CallReport;
                  CallSearch (Py.lit "q")]
                 used))).
Proof.
  apply (corpus_invariant_after_calls Brave (network hollow_hits)
           [Construct; CallGetQuerries (Py.lit "theme");
            CallSearch (Py.lit "q"); CallReport; CallSearch (Py.lit "q")]
           used).
  - right. intros t. exists (Py.lit "No scheme supplied"). reflexivity.
  - apply Forall_cons; [|apply Forall_cons; [|apply Forall_nil]];
      (split; [discriminate | apply (proj1 (Nat.leb_le _ _)); reflexivity]).
Defined.

(** The session of the witness, run: the entry with the empty address is
    asked for and refused, and the two calls of [search] store the same
    page once each. *)
Example corpus_after_session :
  load_corpus
    (files (perform_all Brave (network hollow_hits)
              [Construct; CallGetQuerries (Py.lit "theme");
               CallSearch (Py.lit "q"); CallReport; CallSearch (Py.lit "q")]
              used))
  = old_records ++
    [ {| url := Py.lit "http://b"; title := Some (Py.lit "B");
         text := Py.lit "hello world" |};
      {| url := Py.lit "http://b"; title := Some (Py.lit "B");
         text := Py.lit "hello world" |} ].
Proof. reflexivity. Qed.

(** X15.  Whatever [report] returns is trimmed: the returned text, the
    fixed sentence included, has no whitespace at either end, even when the
    model's answer had. *)
Theorem report_value_trimmed (p : provider) (env : Env) (w : World)
    (final : Py.str) :
  value (report p env w) = Some final -> Py.strip final = final.
Proof.
  unfold value.
  destruct (results_file (files w)) as [[|rs]|] eqn:Hfile.
  - rewrite (report_without_storage env p w (or_intror Hfile)).
    now intros [= <-].
  - destruct p.
    + destruct (report_with_Brave_outcome CHUNK_SIZE env w rs Hfile)
        as (Hout & _).
      fold (report Brave env w) in Hout.
      destruct (fst (report Brave env w)) as [final'|e]; [|discriminate].
      intros [= <-]. apply Hout.
    + rewrite (report_Serper_raises env w rs Hfile). discriminate.
  - rewrite (report_without_storage env p w (or_introl Hfile)).
    now intros [= <-].
Qed.

Lemma report_value_trimmed_witness :
  Py.strip (Py.lit "alpha" ++ [10; 32; 10]%N ++ Py.lit " beta")
  = Py.lit "alpha" ++ [10; 32; 10]%N ++ Py.lit " beta".
Proof.
  exact (report_value_trimmed Brave sample_env used
           (Py.lit "alpha" ++ [10; 32; 10]%N ++ Py.lit " beta") eq_refl).
Defined.

(** X16.  The Serper copies cannot produce a report.  On every run,
    [report] makes no request and changes no file; it raises AttributeError
    as soon as results.json holds a list, and otherwise returns the fixed
    sentence. *)
Theorem report_Serper_never_summarises (env : Env) (w : World) :
  report Serper env w
  = (match results_file (files w) with
     | Some (ResultsJson _) => Raise (AttributeError (Py.lit "openrouter_api_key"))
     | _ => Ok NO_RESULTS
     end, w).
Proof.
  destruct (results_file (files w)) as [[|rs]|] eqn:Hfile.
  - apply report_without_storage. now right.
  - now apply (report_Serper_raises env w rs).
  - apply report_without_storage. now left.
Qed.

(** X17.  After [__init__] in a directory without results.json, the Brave
    copy's [report] makes exactly one request, asking for a summary of the
    empty text, whatever the model then does; the test on the corpus file
    cannot stop it, since [__init__] has just written the empty list. *)
Theorem report_after_init_asks_once (env : Env) (fs : Files)
    (t : list event) :
  results_file fs = None ->
  emitted (report Brave env) {| files := init fs; trace := t |}
    = [Completion (summary_prompt []) 3] /\
  fst (report Brave env {| files := init fs; trace := t |})
    = match llm env t (summary_prompt []) 3 with
      | Some content => Ok (Py.strip content)
      | None => Raise RequestError
      end.
Proof.
  intros Hnone. unfold emitted, report. generalize CHUNK_SIZE. intros size.
  unfold report_with, bind, read_files. cbn [fst snd files trace].
  unfold init at 1 3. cbn [results_file]. rewrite Hnone.
  change (full_text []) with (@nil Py.char). cbn [length].
  assert (E : (size <? 0) = false) by (apply Nat.ltb_ge; lia).
  rewrite E, summary_Brave. cbn [trace].
  unfold write_files, ret.
  destruct (llm env t (summary_prompt []) 3) as [content|];
    cbn [fst snd trace files]; rewrite skipn_length_app; split; reflexivity.
Qed.

Lemma report_after_init_asks_once_witness :
  emitted (report Brave dead_network) {| files := init no_files; trace := [] |}
    = [Completion (summary_prompt []) 3] /\
  fst (report Brave dead_network {| files := init no_files; trace := [] |})
    = match llm dead_network [] (summary_prompt []) 3 with
      | Some content => Ok (Py.strip content)
      | None => Raise RequestError
      end.
Proof.
  exact (report_after_init_asks_once dead_network no_files [] eq_refl).
Defined.

(* ------------------------------------------------------------------ *)
(** ** Further properties: start-up *)

(** X18.  Creating the object a second time, or on a directory that
    already has its files, loses nothing: [__init__] leaves every existing
    file as it is, changes no corpus as [search] reads it, is the same done
    twice as done once, and leaves all three files in place. *)
Theorem init_keeps_existing_files (fs : Files) :
  init (init fs) = init fs /\
  load_corpus (init fs) = load_corpus fs /\
  (forall c, queries_file fs = Some c -> queries_file (init fs) = Some c) /\
  (forall c, results_file fs = Some c -> results_file (init fs) = Some c) /\
  (forall c, report_file fs = Some c -> report_file (init fs) = Some c) /\
  queries_file (init fs) <> None /\
  results_file (init fs) <> None /\
  report_file (init fs) <> None.
Proof.
  destruct fs as [[q|] [r|] [t|]]; unfold init, load_corpus; cbn;
    repeat split; try discriminate; auto.
Qed.

(* ------------------------------------------------------------------ *)
(** ** Further properties: the worker of the interface *)

Lemma search_each_Serper_returns (env : Env) (queries : list Py.str) :
  (forall t query, find env t Serper query <> None) ->
  forall w : World, returned (search_each Serper env queries w) = true.
Proof.
  intros Hfind. induction queries as [|query rest IH]; intros w;
    cbn [search_each]; [reflexivity|].
  unfold bind.
  pose proof (search_Serper_returns env query w (Hfind (trace w) query)) as R.
  unfold returned in R.
  destruct (search Serper env query w) as [[[]|e] w1]; cbn [fst] in R;
    [apply IH|discriminate].
Qed.

(** X19.  The worker behind "Run Searches".  With a stored query list and
    a provider that answers, it always reaches its end, having searched
    every stored query once, in order: no malformed entry and no failing
    page can stop it.  Without a stored list (querries.json missing, or
    blank as [__init__] leaves it) it stops at once: nothing is searched
    and nothing is changed. *)
Theorem run_searches_outcome (env : Env) (w : World) :
  (forall queries,
     queries_file (files w) = Some (QueriesJson queries) ->
     (forall t query, find env t Serper query <> None) ->
     fst (run_searches env w) = true /\
     searched_of (skipn (length (trace w)) (trace (snd (run_searches env w))))
       = queries) /\
  ((forall queries, queries_file (files w) <> Some (QueriesJson queries)) ->
   run_searches env w = (false, w)).
Proof.
  unfold run_searches. split.
  - intros queries Hq Hfind. rewrite Hq. cbn [fst snd].
    pose proof (search_each_Serper_returns env queries Hfind w) as R.
    destruct (search_each_run Serper env queries w)
      as (added & evs & k & _ & _ & _ & _ & Ht & Hs & _ & _ & Hret & _).
    split; [exact R|].
    rewrite Ht, skipn_length_app, Hs, (Hret R). apply firstn_all.
  - intros Hno. destruct (queries_file (files w)) as [[|queries]|];
      try reflexivity.
    now destruct (Hno queries).
Qed.

Lemma run_searches_outcome_witness :
  (fst (run_searches sample_env used) = true /\
   searched_of (skipn (length (trace used))
                  (trace (snd (run_searches sample_env used))))
     = [Py.lit "old query"]) /\
  run_searches sample_env fresh = (false, fresh).
Proof.
  split.
  - apply (proj1 (run_searches_outcome sample_env used) [Py.lit "old query"]
             eq_refl).
    intros t query. discriminate.
  - apply (proj2 (run_searches_outcome sample_env fresh)).
    intros queries. discriminate.
Defined.

(** Once results.json holds a list, it still does after [search]. *)
Lemma search_keeps_list (p : provider) (env : Env) (query : Py.str)
    (w : World) (rs : list ExtractionRecord) :
  results_file (files w) = Some (ResultsJson rs) ->
  exists rs', results_file (files (snd (search p env query w)))
              = Some (ResultsJson rs').
Proof.
  intros H. rewrite search_outcome.
  pose proof (gather_files env p query w) as Hf.
  destruct (gather p env query w) as [[built|e] w1]; cbn [fst snd files] in *.
  - eexists. reflexivity.
  - exists rs. now rewrite Hf.
Qed.

Lemma search_each_keeps_list (p : provider) (env : Env)
    (queries : list Py.str) :
  forall (w : World) (rs : list ExtractionRecord),
  results_file (files w) = Some (ResultsJson rs) ->
  exists rs', results_file (files (snd (search_each p env queries w)))
              = Some (ResultsJson rs').
Proof.
  induction queries as [|query rest IH]; intros w rs H; cbn [search_each].
  - now exists rs.
  - unfold bind.
    destruct (search_keeps_list p env query w rs H) as [rs1 H1].
    destruct (search p env query w) as [[[]|e] w1]; cbn [fst snd] in *.
    + now apply (IH w1 rs1).
    + now exists rs1.
Qed.

(** X20.  The query list that [get_querries] returns is the one the
    worker of the interface then searches: after a call that returned
    [qs], and with a provider that answers, the worker reaches its end
    having searched exactly [qs], in order. *)
Theorem generated_queries_are_searched (env : Env) (theme : Py.str)
    (w : World) (qs : list Py.str) :
  value (get_querries env theme w) = Some qs ->
  (forall t query, find env t Serper query <> None) ->
  fst (run_searches env (snd (get_querries env theme w))) = true /\
  searched_of
    (skipn (length (trace (snd (get_querries env theme w))))
       (trace (snd (run_searches env (snd (get_querries env theme w))))))
    = qs.
Proof.
  intros Hval Hfind.
  assert (Hq : queries_file (files (snd (get_querries env theme w)))
               = Some (QueriesJson qs)).
  { revert Hval. rewrite get_querries_run. unfold value.
    destruct (llm env (trace w) (queries_prompt theme) 7) as [content|];
      cbn [fst snd files]; [|discriminate].
    now intros [= <-]. }
  set (w1 := snd (get_querries env theme w)) in *.
  unfold run_searches. rewrite Hq. cbn [fst snd].
  pose proof (search_each_Serper_returns env qs Hfind w1) as R.
  destruct (search_each_run Serper env qs w1)
    as (added & evs & k & _ & _ & _ & _ & Ht & Hs & _ & _ & Hret & _).
  split; [exact R|].
  rewrite Ht, skipn_length_app, Hs, (Hret R). apply firstn_all.
Qed.

Lemma generated_queries_are_searched_witness :
  fst (run_searches sample_env
         (snd (get_querries sample_env (Py.lit "solar") used))) = true /\
  searched_of
    (skipn (length (trace (snd (get_querries sample_env (Py.lit "solar") used))))
       (trace (snd (run_searches sample_env
                      (snd (get_querries sample_env (Py.lit "solar") used))))))
    = [Py.lit "alpha"; Py.lit "beta"].
Proof.
  apply (generated_queries_are_searched sample_env (Py.lit "solar") used
           [Py.lit "alpha"; Py.lit "beta"] eq_refl).
  intros t query. discriminate.
Defined.

(** X21.  In the interface, a completed search run is never followed by a
    report.  When the worker has searched a non-empty query list to its
    end, results.json holds a list, and [report] of the Serper copy, on
    which the interface is built, raises AttributeError without asking the
    model and without touching report.json. *)
Theorem report_fails_after_search_run (env : Env) (w : World)
    (query : Py.str) (rest : list Py.str) :
  queries_file (files w) = Some (QueriesJson (query :: rest)) ->
  fst (run_searches env w) = true ->
  report Serper env (snd (run_searches env w))
  = (Raise (AttributeError (Py.lit "openrouter_api_key")),
     snd (run_searches env w)).
Proof.
  intros Hq. unfold run_searches. rewrite Hq. cbn [fst snd].
  unfold returned. cbn [search_each]. unfold bind.
  pose proof (search_outcome Serper env query w) as Ho.
  destruct (search Serper env query w) as [[[]|e] w1]; cbn [fst snd];
    [|discriminate].
  intros _.
  assert (Hlist : exists rs, results_file (files w1) = Some (ResultsJson rs)).
  { destruct (gather Serper env query w) as [[built|e] g1];
      [|discriminate].
    injection Ho as ->. eexists. reflexivity. }
  destruct Hlist as [rs Hrs].
  destruct (search_each_keeps_list Serper env rest w1 rs Hrs) as [rs' Hrs'].
  now apply (report_Serper_raises env _ rs').
Qed.

Lemma report_fails_after_search_run_witness :
  report Serper sample_env (snd (run_searches sample_env used))
  = (Raise (AttributeError (Py.lit "openrouter_api_key")),
     snd (run_searches sample_env used)).
Proof.
  exact (report_fails_after_search_run sample_env used (Py.lit "old query") []
           eq_refl eq_refl).
Defined.

(* ------------------------------------------------------------------ *)
(** ** Further properties: a report that fails on the way *)

(** X22.  Requests of the Brave copy's [report] on every run, failed or
    not, with a corpus file holding the list [rs].  At least one request
    is made.  A blob within 250000 characters gives exactly one, for the
    blob.  A longer one gives one of two runs.  Either the model answered
    the request for every chunk: then the requests are those for the
    chunks, in order, followed by one for its trimmed answers joined by
    blank lines.  Or the request for some chunk failed: then the requests
    are those for the chunks up to and including the first that failed,
    nothing is asked after it, the run raises and the files are as they
    were. *)
Theorem report_stops_at_first_failure (env : Env) (w : World)
    (rs : list ExtractionRecord) :
  results_file (files w) = Some (ResultsJson rs) ->
  let blob := full_text rs in
  let chunks := chunks_of CHUNK_SIZE blob in
  let calls := prompts_of (emitted (report Brave env) w) in
  1 <= length calls /\
  (length blob <= CHUNK_SIZE -> calls = [summary_prompt blob]) /\
  (CHUNK_SIZE < length blob ->
     (exists summaries,
        summaries_of env (trace w) chunks summaries /\
        calls = map summary_prompt chunks
                ++ [summary_prompt (Py.join BLANK_LINE summaries)]) \/
     (exists k,
        first_failure env (trace w) chunks k /\
        calls = map summary_prompt (firstn (S k) chunks) /\
        fst (report Brave env w) = Raise RequestError /\
        files (snd (report Brave env w)) = files w)).
Proof.
  unfold report. generalize CHUNK_SIZE. intros size Hfile.
  pose proof (report_with_Brave_chunked size env w rs Hfile) as Hlong.
  cbv zeta in Hlong.
  set (blob := full_text rs) in *. set (chunks := chunks_of size blob) in *.
  cbv zeta.
  destruct (size <? length blob) eqn:E.
  - apply Nat.ltb_lt in E.
    assert (D :
      (exists summaries,
         summaries_of env (trace w) chunks summaries /\
         prompts_of (emitted (report_with size Brave env) w)
         = map summary_prompt chunks
           ++ [summary_prompt (Py.join BLANK_LINE summaries)]) \/
      (exists k,
         first_failure env (trace w) chunks k /\
         prompts_of (emitted (report_with size Brave env) w)
         = map summary_prompt (firstn (S k) chunks) /\
         fst (report_with size Brave env w) = Raise RequestError /\
         files (snd (report_with size Brave env w)) = files w)).
    { destruct (Hlong E)
        as [(summaries & Hs & Hev & _)|(k & Hfirst & Hev & Hr & Hf)].
      - left. exists summaries. split; [exact Hs|].
        rewrite Hev, prompts_of_app, prompts_of_completions. reflexivity.
      - right. exists k. rewrite Hev, prompts_of_completions.
        split; [exact Hfirst|]. split; [reflexivity|]. now split. }
    split.
    { destruct D as [(summaries & _ & ->)|(k & (Hk & _) & -> & _)].
      - rewrite length_app. cbn [length]. lia.
      - rewrite length_map, length_firstn. lia. }
    split; [intros; exfalso; lia | intros _; exact D].
  - assert (Hcalls : prompts_of (emitted (report_with size Brave env) w)
                     = [summary_prompt blob]).
    { unfold emitted, report_with, bind, read_files. cbn [fst snd].
      rewrite Hfile. fold blob. rewrite E. rewrite summary_Brave.
      unfold write_files, ret.
      destruct (llm env (trace w) _ 3); cbn [fst snd trace];
        rewrite skipn_length_app; reflexivity. }
    apply Nat.ltb_ge in E. rewrite Hcalls. cbn [length].
    split; [lia|]. split; [reflexivity | intros; exfalso; lia].
Qed.

Lemma report_stops_at_first_failure_witness :
  let blob := full_text long_corpus in
  let chunks := chunks_of CHUNK_SIZE blob in
  let calls :=
    prompts_of (emitted (report Brave one_answer_network) long_world) in
  CHUNK_SIZE < length blob /\
  1 <= length calls /\
  ((exists summaries,
      summaries_of one_answer_network (trace long_world) chunks summaries /\
      calls = map summary_prompt chunks
              ++ [summary_prompt (Py.join BLANK_LINE summaries)]) \/
   (exists k,
      first_failure one_answer_network (trace long_world) chunks k /\
      calls = map summary_prompt (firstn (S k) chunks) /\
      fst (report Brave one_answer_network long_world) = Raise RequestError /\
      files (snd (report Brave one_answer_network long_world))
      = files long_world)).
Proof.
  split; [exact long_corpus_exceeds|]. split.
  - exact (proj1 (report_stops_at_first_failure one_answer_network long_world
                    long_corpus eq_refl)).
  - exact (proj2 (proj2 (report_stops_at_first_failure one_answer_network
                           long_world long_corpus eq_refl))
                 long_corpus_exceeds).
Defined.

(** The same with a chunk size of 4 and a model that fails on its second
    request: two requests, the third chunk is never sent. *)
Example report_stops_sample :
  prompts_of
    (emitted (report_with 4 Brave
                {| llm := fun t _ _ =>
                     match t with [] => Some (Py.lit "s") | _ => None end;
                   find := find dead_network; fetch := fetch dead_network |})
       {| files := set_results (files used)
                     (ResultsJson [ {| url := []; title := None;
                                       text := [] |} ]);
          trace := [] |})
  = map summary_prompt [Py.lit "Sour"; Py.lit "ce: "].
Proof. reflexivity. Qed.
